(** * Companytec DT435 client: frame codec, transport session, response parsers

    A shallow embedding of the protocol core of the repository:

    - [companytec-client.js]  (class [CompanytecClient])      -> module [JS]
    - the Go port of the client (package [companytec])        -> module [Go]
    - the interactive test client (the [parse...Response]
      helpers that print what they decode)                    -> module [TestClient]
    - [monitor-example.js]    (class [PumpMonitor])           -> module [Monitor]
    - the Go API server (package [api]): what its handlers
      reply once the client has answered                      -> module [GoServer]

    Strings.  The protocol is ASCII text; a frame is written to the socket
    one byte per character.  A string is modelled as [String.string], a
    sequence of 8-bit characters.  On the JavaScript side a character is a
    code unit ([charCodeAt], [length] and [substring] count code units); on
    the Go side it is a byte ([len] counts bytes, [[]rune] decodes UTF-8).
    For ASCII text the three views coincide, and the lemmas that compare the
    two clients say so explicitly with [is_ascii]. *)

From Stdlib Require Import ZArith NArith Arith List Bool Ascii String Lia.
From Stdlib Require Import DecimalString.
Import ListNotations.
Open Scope string_scope.

(* ===================================================================== *)
(** ** String primitives of the two languages                            *)
(* ===================================================================== *)

Module Str.

(** Character code of one character. *)
Definition code (c : ascii) : N := N_of_ascii c.

(** [s.charCodeAt(i)] for every [i], in order. *)
Fixpoint charCodes (s : string) : list N :=
  match s with
  | EmptyString => []
  | String c s' => code c :: charCodes s'
  end.

(** [s.length] as the signed number index arithmetic is done on. *)
Definition len (s : string) : Z := Z.of_nat (String.length s).

Fixpoint take (n : nat) (s : string) : string :=
  match n, s with
  | O, _ => EmptyString
  | S _, EmptyString => EmptyString
  | S n', String c s' => String c (take n' s')
  end.

Fixpoint drop (n : nat) (s : string) : string :=
  match n, s with
  | O, _ => s
  | S _, EmptyString => EmptyString
  | S n', String _ s' => drop n' s'
  end.

(** Clamp an index into [0 .. len s], as [String.prototype.substring]
    does with each of its arguments. *)
Definition clamp (s : string) (i : Z) : nat :=
  Z.to_nat (Z.min (Z.max i 0) (len s)).

(** JavaScript [s.substring(a, b)]: both indices are clamped to
    [0 .. s.length], and they are swapped when [a > b]. *)
Definition substring (s : string) (a b : Z) : string :=
  let a' := clamp s a in
  let b' := clamp s b in
  let lo := Nat.min a' b' in
  let hi := Nat.max a' b' in
  take (hi - lo) (drop lo s).

Fixpoint replicate (n : nat) (c : ascii) : string :=
  match n with
  | O => EmptyString
  | S n' => String c (replicate n' c)
  end.

(** JavaScript [s.padStart(width, fill)] for a one-character [fill]:
    nothing is removed from a string that is already [width] long or
    longer. *)
Definition padStart (s : string) (width : nat) (fill : ascii) : string :=
  replicate (width - String.length s) fill ++ s.

(** [c.toUpperCase()] on one ASCII character (the client applies it to
    hexadecimal digits only). *)
Definition upper (c : ascii) : ascii :=
  let n := code c in
  if ((97 <=? n) && (n <=? 122))%N then ascii_of_N (n - 32) else c.

Fixpoint toUpperCase (s : string) : string :=
  match s with
  | EmptyString => EmptyString
  | String c s' => String (upper c) (toUpperCase s')
  end.

(** Digit characters of [Number.prototype.toString(16)]: lower case. *)
Definition hexDigit (d : N) : ascii :=
  match d with
  | 0 => "0" | 1 => "1" | 2 => "2" | 3 => "3" | 4 => "4" | 5 => "5"
  | 6 => "6" | 7 => "7" | 8 => "8" | 9 => "9" | 10 => "a" | 11 => "b"
  | 12 => "c" | 13 => "d" | 14 => "e" | _ => "f"
  end%N%char.

(** Digit characters of Go's [%X]: upper case. *)
Definition hexDigitUpper (d : N) : ascii :=
  match d with
  | 0 => "0" | 1 => "1" | 2 => "2" | 3 => "3" | 4 => "4" | 5 => "5"
  | 6 => "6" | 7 => "7" | 8 => "8" | 9 => "9" | 10 => "A" | 11 => "B"
  | 12 => "C" | 13 => "D" | 14 => "E" | _ => "F"
  end%N%char.

(** Digits of [n] in base 16, most significant first, no leading zero
    ("0" for zero).  [fuel] bounds the number of digits. *)
Fixpoint digits16 (digit : N -> ascii) (fuel : nat) (n : N) (acc : string)
  : string :=
  match fuel with
  | O => acc
  | S fuel' =>
      let acc' := String (digit (n mod 16)%N) acc in
      if (n / 16 =? 0)%N then acc' else digits16 digit fuel' (n / 16)%N acc'
  end.

(** A number of [N.size n] bits has at most that many hex digits. *)
Definition hexFuel (n : N) : nat := S (N.to_nat (N.size n)).

(** JavaScript [n.toString(16)] on a non-negative integer. *)
Definition toString16 (n : N) : string :=
  digits16 hexDigit (hexFuel n) n EmptyString.

(** Decimal rendering of a natural number (template-literal interpolation
    of an integer, Go's [%d]). *)
Definition decimal (n : nat) : string :=
  NilEmpty.string_of_uint (Nat.to_uint n).

(** Every character is a 7-bit ASCII character. *)
Fixpoint is_ascii (s : string) : bool :=
  match s with
  | EmptyString => true
  | String c s' => (code c <? 128)%N && is_ascii s'
  end.

(** First occurrence of [d]: the prefix up to and including it, and the
    rest. *)
Fixpoint splitAfter (d : ascii) (s : string) : option (string * string) :=
  match s with
  | EmptyString => None
  | String c s' =>
      if Ascii.eqb c d then Some (String c EmptyString, s')
      else match splitAfter d s' with
           | Some (p, r) => Some (String c p, r)
           | None => None
           end
  end.

Fixpoint concat (l : list string) : string :=
  match l with
  | [] => EmptyString
  | s :: l' => s ++ concat l'
  end.

(** Go slice expression [s[a:b]]: the bytes from [a] up to, not including,
    [b], when [0 <= a <= b <= len(s)]; a run-time panic otherwise
    ([None]). *)
Definition slice (s : string) (a b : Z) : option string :=
  if ((0 <=? a) && (a <=? b) && (b <=? len s))%Z
  then Some (take (Z.to_nat (b - a)) (drop (Z.to_nat a) s))
  else None.

(** Decimal digits of a non-negative integer. *)
Definition decimalN (n : N) : string :=
  NilEmpty.string_of_uint (N.to_uint n).

End Str.

(* ===================================================================== *)
(** ** companytec-client.js                                              *)
(* ===================================================================== *)

Module JS.

(** The loop of [calculateChecksum]:
    [for (let i = 1; i < command.length; i++) sum += command.charCodeAt(i)]. *)
Fixpoint sumLoop (codes : list N) (sum : N) : N :=
  match codes with
  | [] => sum
  | c :: rest => sumLoop rest (sum + c)%N
  end.

(** [calculateChecksum(command)]. *)
Definition calculateChecksum (command : string) : string :=
  let sum := sumLoop (tl (Str.charCodes command)) 0%N in
  Str.padStart (Str.toUpperCase (Str.toString16 (N.land sum 255))) 2 "0".

(** [buildCommand(header, parameters = "")]. *)
Definition buildCommand (header parameters : string) : string :=
  let commandBody := "(" ++ header ++ parameters in
  let checksum := calculateChecksum commandBody in
  commandBody ++ checksum ++ ")".

(** *** The session: [this.client], [this.connected] and the sockets

    Sockets are numbered in the order [new net.Socket()] creates them.
    [wire] lists what was handed to [socket.write], oldest first, with
    the socket it was written to; [destroyed] lists the sockets on which
    [destroy()] was called; [dataListeners] counts the [once("data")]
    listeners still registered on the current socket. *)
Record Client := mkClient {
  client : option nat;
  connected : bool;
  created : nat;
  destroyed : list nat;
  dataListeners : nat;
  wire : list (option nat * string)
}.

(** [new CompanytecClient(host, port)]. *)
Definition newClient : Client :=
  mkClient None false 0 [] 0 [].

(** How a promise settles. *)
Inductive Promise (A : Type) : Type :=
| Resolved (value : A)
| Rejected (message : string).
Arguments Resolved {A} value.
Arguments Rejected {A} message.

(** What the network does with a connection attempt: the connect callback
    fires, or the socket emits ["error"]. *)
Inductive ConnectEvent : Type :=
| Established
| SocketError (message : string).

(** [connect()]: a new socket is created and assigned to [this.client]
    unconditionally; [this.connected] is set by the connect callback
    ([true]) or by the ["error"] handler ([false]). *)
Definition connect (ev : ConnectEvent) (st : Client) : Promise unit * Client :=
  let st1 := mkClient (Some (created st)) (connected st) (S (created st))
                      (destroyed st) 0 (wire st) in
  match ev with
  | Established =>
      (Resolved tt,
       mkClient (client st1) true (created st1) (destroyed st1)
                (dataListeners st1) (wire st1))
  | SocketError msg =>
      (Rejected msg,
       mkClient (client st1) false (created st1) (destroyed st1)
                (dataListeners st1) (wire st1))
  end.

(** [disconnect()]. *)
Definition disconnect (st : Client) : Client :=
  match client st with
  | Some sock =>
      mkClient (client st) false (created st) (sock :: destroyed st)
               (dataListeners st) (wire st)
  | None => st
  end.

(** [data.toString("ascii")]: the high bit of every byte is cleared. *)
Fixpoint asciiDecode (data : string) : string :=
  match data with
  | EmptyString => EmptyString
  | String c rest =>
      String (ascii_of_N (N.land (Str.code c) 127)) (asciiDecode rest)
  end.

(** [sendCommand(command)].  [chunks] are the ["data"] events the socket
    emits, in order, before the 5000 ms timer fires (none: the timer
    fires first).  The command is written, one [once("data")] listener is
    registered, and the promise settles on whichever comes first: the
    first ["data"] event or the timer.  A ["data"] event runs, and
    removes, every [once] listener registered so far.  The timer's
    callback only rejects; it neither removes the listener nor touches
    the socket or [this.connected]. *)
Definition sendCommand (command : string) (chunks : list string)
    (st : Client) : Promise string * Client :=
  if negb (connected st) then (Rejected "Not connected to device", st)
  else
    let written := (wire st ++ [(client st, command)])%list in
    match chunks with
    | [] =>
        (Rejected "Response timeout",
         mkClient (client st) (connected st) (created st) (destroyed st)
                  (S (dataListeners st)) written)
    | data :: _ =>
        (Resolved (asciiDecode data),
         mkClient (client st) (connected st) (created st) (destroyed st)
                  0 written)
    end.

(** *** Operations *)

Definition increment := sendCommand "(&I)".
Definition getVisualization := sendCommand "(&V)".
Definition getStatus := sendCommand "(&S)".
Definition readCalendar := sendCommand "(&R)".

Definition readSupply52 := sendCommand (buildCommand "&A" "").

Definition readTotal (nozzle mode : string) :=
  sendCommand (buildCommand "&T" (nozzle ++ mode)).

(** The frame [changePrice(nozzle, level, price)] sends. *)
Definition changePriceFrame (nozzle level price : string) : string :=
  let priceStr := Str.padStart price 4 "0" in
  buildCommand "&U" (nozzle ++ level ++ "0" ++ priceStr).

Definition changePrice (nozzle level price : string) :=
  sendCommand (changePriceFrame nozzle level price).

(** The frame [setPreset(nozzle, value)] sends. *)
Definition setPresetFrame (nozzle value : string) : string :=
  let valueStr := Str.padStart value 6 "0" in
  buildCommand "&P" (nozzle ++ valueStr).

Definition setPreset (nozzle value : string) :=
  sendCommand (setPresetFrame nozzle value).

(** [Number.isSafeInteger(n)] for an integer [n]: magnitude at most
    2^53 - 1. *)
Definition isSafeInteger (n : Z) : bool :=
  (Z.abs n <=? 9007199254740991)%Z.

(** [n.toString()] for a number whose value is the safe integer [n]: its
    decimal digits, after a minus sign when it is negative.  Beyond the
    safe integers a number is not every integer, and [toString] prints
    the shortest digits that read back as the number, not all of them:
    that is not modelled ([None]). *)
Definition numberToString (n : Z) : option string :=
  if isSafeInteger n then
    Some match n with
         | Z0 => "0"
         | Zpos p => Str.decimalN (Npos p)
         | Zneg p => "-" ++ Str.decimalN (Npos p)
         end
  else None.

(** The frame [readIdentifierFromMemory(position)] sends, [position] being
    a number whose value is an integer ([None] where [numberToString] is
    not modelled). *)
Definition readIdentifierFromMemoryFrame (position : Z) : option string :=
  match numberToString position with
  | Some text =>
      let positionStr := Str.padStart text 6 "0" in
      Some (buildCommand "?LF" positionStr)
  | None => None
  end.

(** The frame [setOperatingMode(nozzle, mode)] sends. *)
Definition setOperatingModeFrame (nozzle mode : string) : string :=
  buildCommand "&M" (nozzle ++ mode).

(** The frame [setCalendar(day, hour, minute)] sends: a template literal,
    not [buildCommand]. *)
Definition setCalendarFrame (day hour minute : string) : string :=
  "(&H" ++ day ++ hour ++ minute ++ ")".

(** *** Sequences of calls

    Every operation of the class is [sendCommand] on some frame, so a use
    of a client is a sequence of [connect], [disconnect] and [sendCommand]
    calls, each with what the network does meanwhile. *)
Inductive Call : Type :=
| CallConnect (ev : ConnectEvent)
| CallDisconnect
| CallSend (command : string) (chunks : list string).

Definition step (st : Client) (call : Call) : Client :=
  match call with
  | CallConnect ev => snd (connect ev st)
  | CallDisconnect => disconnect st
  | CallSend command chunks => snd (sendCommand command chunks st)
  end.

Definition run (calls : list Call) (st : Client) : Client :=
  fold_left step calls st.

End JS.

(* ===================================================================== *)
(** ** The Go client (package companytec)                                *)
(* ===================================================================== *)

Module Go.

(** *** Strings as Go sees them *)

Definition RuneError : N := 65533.

Definition isCont (b : N) : bool := ((128 <=? b) && (b <=? 191))%N.

(** Accepted range of the second byte of a multi-byte sequence, by its
    first byte (package [unicode/utf8]). *)
Definition acceptSecond (b0 b1 : N) : bool :=
  (if b0 =? 224 then (160 <=? b1) && (b1 <=? 191)
   else if b0 =? 237 then (128 <=? b1) && (b1 <=? 159)
   else if b0 =? 240 then (144 <=? b1) && (b1 <=? 191)
   else if b0 =? 244 then (128 <=? b1) && (b1 <=? 143)
   else isCont b1)%N.

(** Length of the sequence a first byte announces; [0] for a byte that
    cannot start one. *)
Definition seqLen (b0 : N) : nat :=
  if (b0 <? 128)%N then 1%nat
  else if (b0 <? 194)%N then 0%nat
  else if (b0 <? 224)%N then 2%nat
  else if (b0 <? 240)%N then 3%nat
  else if (b0 <? 245)%N then 4%nat
  else 0%nat.

Definition low (bits b : N) : N := N.land b (N.ones bits).

(** [[]rune(s)]: UTF-8 decoding; a byte that does not start a valid
    sequence yields [RuneError] and decoding resumes at the next byte. *)
Fixpoint runes (s : string) : list N :=
  match s with
  | EmptyString => []
  | String c0 s1 =>
      let b0 := Str.code c0 in
      let bad := RuneError :: runes s1 in
      match seqLen b0 with
      | 1%nat => b0 :: runes s1
      | 2%nat =>
          match s1 with
          | String c1 s2 =>
              let b1 := Str.code c1 in
              if acceptSecond b0 b1
              then N.lor (N.shiftl (low 5 b0) 6) (low 6 b1) :: runes s2
              else bad
          | _ => bad
          end
      | 3%nat =>
          match s1 with
          | String c1 (String c2 s3) =>
              let b1 := Str.code c1 in
              let b2 := Str.code c2 in
              if acceptSecond b0 b1 && isCont b2
              then N.lor (N.shiftl (low 4 b0) 12)
                     (N.lor (N.shiftl (low 6 b1) 6) (low 6 b2)) :: runes s3
              else bad
          | _ => bad
          end
      | 4%nat =>
          match s1 with
          | String c1 (String c2 (String c3 s4)) =>
              let b1 := Str.code c1 in
              let b2 := Str.code c2 in
              let b3 := Str.code c3 in
              if acceptSecond b0 b1 && isCont b2 && isCont b3
              then N.lor (N.shiftl (low 3 b0) 18)
                     (N.lor (N.shiftl (low 6 b1) 12)
                        (N.lor (N.shiftl (low 6 b2) 6) (low 6 b3)))
                   :: runes s4
              else bad
          | _ => bad
          end
      | _ => bad
      end
  end.

(** [fmt.Sprintf("%02X", n)] for a non-negative [n]. *)
Definition fmt02X (n : N) : string :=
  let digits := Str.digits16 Str.hexDigitUpper (Str.hexFuel n) n EmptyString in
  Str.replicate (2 - String.length digits) "0" ++ digits.

(** [fmt.Sprintf("%0<width>s", s)]: with the [0] flag the padding on the
    left is made of zeros, for a string as for a number; the width of [s]
    is counted in runes. *)
Definition fmt0s (width : nat) (s : string) : string :=
  Str.replicate (width - List.length (runes s)) "0" ++ s.

(** The loop of [calculateChecksum]:
    [for i := 1; i < len(runes); i++ { sum += int(runes[i]) }]. *)
Fixpoint sumLoop (rs : list N) (sum : N) : N :=
  match rs with
  | [] => sum
  | r :: rest => sumLoop rest (sum + r)%N
  end.

Definition calculateChecksum (command : string) : string :=
  let sum := sumLoop (tl (runes command)) 0%N in
  fmt02X (N.land sum 255).

(** [BuildCommand(header, parameters)]. *)
Definition BuildCommand (header parameters : string) : string :=
  let commandBody := "(" ++ header ++ parameters in
  let checksum := calculateChecksum commandBody in
  commandBody ++ checksum ++ ")".

(** *** The session: [Client]

    Connections are numbered in the order [net.DialTimeout] returns them.
    [mu] is [true] while the mutex is held.  [wire] lists what was handed
    to [conn.Write], oldest first; [closed] lists the connections on which
    [Close] was called. *)
Record Client := mkClient {
  conn : option nat;
  connected : bool;
  mu : bool;
  dialed : nat;
  closed : list nat;
  wire : list (nat * string)
}.

(** [NewClient(host, port)]. *)
Definition NewClient : Client := mkClient None false false 0 [] [].

(** [c.conn != nil]. *)
Definition hasConn (c : Client) : bool :=
  match conn c with
  | Some _ => true
  | None => false
  end.

(** A method call either returns, or blocks for ever in [Lock] on a mutex
    that is held and that no one will release. *)
Inductive Outcome (A : Type) : Type :=
| Returns (value : A) (c : Client)
| Blocks (c : Client).
Arguments Returns {A} value c.
Arguments Blocks {A} c.

(** The client as the call leaves it. *)
Definition finalClient {A : Type} (o : Outcome A) : Client :=
  match o with
  | Returns _ c => c
  | Blocks c => c
  end.

Definition M (A : Type) : Type := Client -> Outcome A.

Definition ret {A : Type} (a : A) : M A := fun c => Returns a c.

Definition bind {A B : Type} (m : M A) (k : A -> M B) : M B :=
  fun c => match m c with
           | Returns a c' => k a c'
           | Blocks c' => Blocks c'
           end.

Notation "x <- m ;; k" := (bind m (fun x => k))
  (at level 61, m at next level, right associativity).
Notation "m ;; k" := (bind m (fun _ => k))
  (at level 61, right associativity).

Definition get : M Client := fun c => Returns c c.

(** [c.mu.Lock()]: [sync.Mutex] is not reentrant. *)
Definition Lock : M unit :=
  fun c => if mu c then Blocks c
           else Returns tt (mkClient (conn c) (connected c) true (dialed c)
                                     (closed c) (wire c)).

(** [c.mu.Unlock()]. *)
Definition Unlock : M unit :=
  fun c => Returns tt (mkClient (conn c) (connected c) false (dialed c)
                                (closed c) (wire c)).

(** [c.mu.Lock(); defer c.mu.Unlock()] around a method body. *)
Definition locked {A : Type} (body : M A) : M A :=
  Lock ;; r <- body ;; Unlock ;; ret r.

(** A Go [error]: [nil] or a message. *)
Definition error : Type := option string.

(** [Connect()].  [dial] is what [net.DialTimeout] returns: [None] for a
    connection, [Some e] for an error. *)
Definition Connect (dial : error) : M error :=
  locked (
    c <- get ;;
    if connected c && hasConn c then ret None
    else
      match dial with
      | Some e => ret (Some e)
      | None =>
          fun c => Returns None
                     (mkClient (Some (dialed c)) true (mu c) (S (dialed c))
                               (closed c) (wire c))
      end).

(** [Disconnect()]. *)
Definition Disconnect : M unit :=
  locked (
    fun c =>
      match conn c with
      | Some k =>
          Returns tt (mkClient None false (mu c) (dialed c)
                               (k :: closed c) (wire c))
      | None =>
          Returns tt (mkClient (conn c) false (mu c) (dialed c)
                               (closed c) (wire c))
      end).

(** [IsConnected()]. *)
Definition IsConnected : M bool :=
  locked (c <- get ;; ret (connected c)).

(** What the connection does during one [SendCommand]: whether [Write]
    fails; the chunks successive [Read]s deliver before the deadline; and
    the error [Read] returns once they are used up (the deadline expiring,
    or the peer closing the connection). *)
Record Net := mkNet {
  writeErr : error;
  chunks : list string;
  readEnd : string
}.

(** [bufio.Reader.ReadString(delim)] over the chunks: the data up to and
    including the first [delim]; or, when the stream fails first, the data
    read so far together with the error. *)
Fixpoint ReadString (delim : ascii) (chunks : list string) (readEnd : string)
    (acc : string) : string * error :=
  match chunks with
  | [] => (acc, Some readEnd)
  | chunk :: rest =>
      match Str.splitAfter delim chunk with
      | Some (upto, _) => (acc ++ upto, None)
      | None => ReadString delim rest readEnd (acc ++ chunk)
      end
  end.

(** [c.conn.Write([]byte(command))]. *)
Definition Write (command : string) : M unit :=
  fun c =>
    match conn c with
    | Some k =>
        Returns tt (mkClient (conn c) (connected c) (mu c) (dialed c)
                             (closed c) (wire c ++ [(k, command)])%list)
    | None => Returns tt c
    end.

(** [SendCommand(command)].  The two error paths call [c.Disconnect()]
    while [c.mu] is still held by [SendCommand] itself. *)
Definition SendCommand (command : string) (net : Net)
    : M (string * error) :=
  locked (
    c <- get ;;
    if negb (connected c) || negb (hasConn c)
    then ret ("", Some "not connected to device")
    else
      Write command ;;
      match writeErr net with
      | Some e =>
          Disconnect ;;
          ret ("", Some ("write error: " ++ e))
      | None =>
          let '(response, err) :=
            ReadString ")" (chunks net) (readEnd net) "" in
          match err with
          | Some e =>
              if String.eqb response ""
              then Disconnect ;; ret ("", Some ("read error: " ++ e))
              else ret (response, None)
          | None => ret (response, None)
          end
      end).

(** What [SendCommand command] hands to [conn.Write], by the state it is
    called in: the command, when the session is connected and the mutex
    free; nothing otherwise. *)
Definition written (command : string) (c : Client) : list (nat * string) :=
  match conn c with
  | Some k => if connected c && negb (mu c) then [(k, command)] else []
  | None => []
  end.

(** *** Operations *)

Definition Increment := SendCommand "(&I)".
Definition GetVisualization := SendCommand "(&V)".
Definition GetStatus := SendCommand "(&S)".
Definition ReadCalendar := SendCommand "(&R)".

(** The frame [ChangePrice(nozzle, level, price)] sends. *)
Definition ChangePriceFrame (nozzle level price : string) : string :=
  let price := if (Str.len price <? 4)%Z then fmt0s 4 price else price in
  let params := nozzle ++ level ++ "0" ++ price in
  BuildCommand "&U" params.

Definition ChangePrice (nozzle level price : string) :=
  SendCommand (ChangePriceFrame nozzle level price).

(** The frame [SetPreset(nozzle, value)] sends. *)
Definition SetPresetFrame (nozzle value : string) : string :=
  let value := if (Str.len value <? 6)%Z then fmt0s 6 value else value in
  BuildCommand "&P" (nozzle ++ value).

Definition SetPreset (nozzle value : string) :=
  SendCommand (SetPresetFrame nozzle value).

(** [fmt.Sprintf("%06d", n)]: the sign, if any, then zeros, then the
    digits, six characters in all unless the number needs more. *)
Definition fmt06d (n : Z) : string :=
  match n with
  | Z0 => Str.replicate 5 "0" ++ "0"
  | Zpos p =>
      let digits := Str.decimalN (Npos p) in
      Str.replicate (6 - String.length digits) "0" ++ digits
  | Zneg p =>
      let digits := Str.decimalN (Npos p) in
      "-" ++ Str.replicate (5 - String.length digits) "0" ++ digits
  end.

(** The frame [ReadIdentifierFromMemory(position)] sends. *)
Definition ReadIdentifierFromMemoryFrame (position : Z) : string :=
  let posStr := fmt06d position in
  BuildCommand "?LF" posStr.

(** The frame [SetOperatingMode(nozzle, mode)] sends. *)
Definition SetOperatingModeFrame (nozzle mode : string) : string :=
  BuildCommand "&M" (nozzle ++ mode).

(** *** Sequences of calls *)
Inductive Call : Type :=
| CallConnect (dial : error)
| CallDisconnect
| CallIsConnected
| CallSend (command : string) (net : Net).

Definition step (call : Call) : M unit :=
  match call with
  | CallConnect dial => Connect dial ;; ret tt
  | CallDisconnect => Disconnect
  | CallIsConnected => IsConnected ;; ret tt
  | CallSend command net => SendCommand command net ;; ret tt
  end.

(** The calls one after the other; a call that blocks is the last. *)
Fixpoint run (calls : list Call) : M unit :=
  match calls with
  | [] => ret tt
  | call :: rest => step call ;; run rest
  end.

End Go.

(* ===================================================================== *)
(** ** The interactive test client (test-client.js)                      *)
(* ===================================================================== *)

Module TestClient.

(** The parsers print what they decode; the result of one is the list of
    its [console.log] lines, in order. *)

Definition nl : string := String (ascii_of_nat 10) EmptyString.

(** [data[i]] for an index within the string. *)
Definition at_ (data : string) (i : nat) : string :=
  Str.take 1 (Str.drop i data).

Definition parseSupplyResponse (response : string) : list string :=
  if String.eqb response "(0)" then ["No supply data available."]
  else
    let data := Str.substring response 1 (Str.len response - 3) in
    if (34 <=? Str.len data)%Z then
      [ nl ++ "Supply Data:";
        "  Total to Pay: " ++ Str.substring data 0 6;
        "  Volume: " ++ Str.substring data 6 12;
        "  Price: " ++ Str.substring data 12 16;
        "  Comma Code: " ++ Str.substring data 16 18;
        "  Supply Time: " ++ Str.substring data 18 22;
        "  Nozzle Code: " ++ Str.substring data 22 24;
        "  Day: " ++ Str.substring data 24 26;
        "  Hour: " ++ Str.substring data 26 28;
        "  Minute: " ++ Str.substring data 28 30 ]
      ++ (if (52 <=? Str.len data)%Z then
            [ "  Month: " ++ Str.substring data 30 32;
              "  Record: " ++ Str.substring data 32 36;
              "  Final Total: " ++ Str.substring data 36 46;
              "  Status: " ++ Str.substring data 46 48 ]
          else [])
    else [].

Definition parseSupplyIdentifiedResponse (response : string) : list string :=
  if String.eqb response "(0)" then ["No supply data available."]
  else
    let data := Str.substring response 2 (Str.len response - 3) in
    if (70 <=? Str.len data)%Z then
      [ nl ++ "Supply Data (Identified):";
        "  Total: " ++ Str.substring data 0 6;
        "  Volume: " ++ Str.substring data 6 12;
        "  Price: " ++ Str.substring data 12 16;
        "  Nozzle: " ++ Str.substring data 22 24;
        "  Identifier: " ++ Str.substring data 50 66 ]
    else [].

(** [for (let i = 0; i < data.length; i += 8) { ... }]; the loop runs at
    most [data.length] times, which [fuel] is set to. *)
Fixpoint visualizationLoop (fuel : nat) (data : string) (i : Z) : list string :=
  match fuel with
  | O => []
  | S fuel' =>
      if (i <? Str.len data)%Z then
        let nozzle := Str.substring data i (i + 2) in
        let value := Str.substring data (i + 2) (i + 8) in
        ("  Nozzle " ++ nozzle ++ ": " ++ value)
          :: visualizationLoop fuel' data (i + 8)
      else []
  end.

Definition parseVisualizationResponse (response : string) : list string :=
  if String.eqb response "(0)" then ["No dispensing in progress."]
  else
    let data := Str.substring response 1 (Str.len response - 1) in
    (nl ++ "Ongoing Dispensing:")
      :: visualizationLoop (String.length data) data 0.

(** The [switch (code)] of [parseStatusResponse]. *)
Definition statusText (code : ascii) : string :=
  if Ascii.eqb code "L" then "Available"
  else if Ascii.eqb code "B" then "Blocked"
  else if Ascii.eqb code "C" then "Finished"
  else if Ascii.eqb code "A" then "Refueling"
  else if Ascii.eqb code "E" then "Waiting"
  else if Ascii.eqb code "F" then "Not present"
  else if Ascii.eqb code "P" then "Ready"
  else "Unknown".

(** [for (let i = 0; i < statusCodes.length; i++) { ... }], [codes] being
    what is left of [statusCodes] from index [i] on. *)
Fixpoint statusLoop (i : nat) (codes : string) : list string :=
  match codes with
  | EmptyString => []
  | String code rest =>
      (if Ascii.eqb code "F" then []
       else [ "  Position " ++ Str.decimal (i + 1) ++ ": "
                ++ String code EmptyString ++ " (" ++ statusText code ++ ")" ])
      ++ statusLoop (S i) rest
  end.

Definition parseStatusResponse (response : string) : list string :=
  let data := Str.substring response 1 (Str.len response - 1) in
  let statusCodes := Str.substring data 1 33 in
  [ nl ++ "Status Information:";
    "  Raw Status: " ++ data;
    nl ++ "Nozzle Status:" ]
  ++ statusLoop 0 statusCodes.

Definition parseTotalResponse (response : string) : list string :=
  let data := Str.substring response 1 (Str.len response - 3) in
  if (10 <=? Str.len data)%Z then
    let mode := at_ data 0 in
    let nozzle := Str.substring data 1 3 in
    let value := Str.substring data 3 11 in
    [ nl ++ "Total Reading:";
      "  Mode: " ++ mode;
      "  Nozzle: " ++ nozzle;
      "  Value: " ++ value ]
  else [].

(** The messages with which a parser reports that there is no data. *)
Definition noDataMessages : list string :=
  [ "No supply data available."; "No dispensing in progress." ].

End TestClient.

(* ===================================================================== *)
(** ** monitor-example.js                                                *)
(* ===================================================================== *)

Module Monitor.

(** The object [parseSupplyRecord] returns. *)
Record SupplyRecord := mkSupplyRecord {
  totalToPay : string;
  volume : string;
  price : string;
  commaCode : string;
  supplyTime : string;
  nozzle : string;
  day : string;
  hour : string;
  minute : string;
  month : string;
  record : string;
  finalTotal : string;
  status : string
}.

Definition parseSupplyRecord (response : string) : SupplyRecord :=
  let data := Str.substring response 1 (Str.len response - 3) in
  mkSupplyRecord
    (Str.substring data 0 6)
    (Str.substring data 6 12)
    (Str.substring data 12 16)
    (Str.substring data 16 18)
    (Str.substring data 18 22)
    (Str.substring data 22 24)
    (Str.substring data 24 26)
    (Str.substring data 26 28)
    (Str.substring data 28 30)
    (Str.substring data 30 32)
    (Str.substring data 32 36)
    (Str.substring data 36 46)
    (Str.substring data 46 48).

Section Display.

(** [new Date().toLocaleTimeString()] at the time of the call, and
    [formatValue] (a float division and [toFixed(2)]), are taken as given. *)
Variable timestamp : string.
Variable formatValue : string -> string.

(** [for (let i = 0; i < data.length; i += 8) { if (i + 8 <= data.length) ... }]. *)
Fixpoint visualizationLoop (fuel : nat) (data : string) (i : Z) : list string :=
  match fuel with
  | O => []
  | S fuel' =>
      if (i <? Str.len data)%Z then
        (if (i + 8 <=? Str.len data)%Z then
           let nozzle := Str.substring data i (i + 2) in
           let value := Str.substring data (i + 2) (i + 8) in
           [ "  Nozzle " ++ nozzle ++ ": " ++ formatValue value ]
         else [])
        ++ visualizationLoop fuel' data (i + 8)
      else []
  end.

Definition parseAndDisplayVisualization (response : string) : list string :=
  if String.eqb response "(0)" then []
  else
    let data := Str.substring response 1 (Str.len response - 1) in
    ("[" ++ timestamp ++ "] Dispensing:")
      :: (visualizationLoop (String.length data) data 0 ++ [""])%list.

End Display.

(** [getStatusDescription(code)]: the table, or ['Unknown']. *)
Definition getStatusDescription (code : ascii) : string :=
  if Ascii.eqb code "L" then "Available"
  else if Ascii.eqb code "B" then "Blocked"
  else if Ascii.eqb code "C" then "Finished"
  else if Ascii.eqb code "A" then "Refueling"
  else if Ascii.eqb code "E" then "Waiting"
  else if Ascii.eqb code "F" then "Not Present"
  else if Ascii.eqb code "P" then "Ready"
  else "Unknown".

(** One element of [activeNozzles]: [{ position, nozzle, status }]. *)
Record ActiveNozzle := mkActiveNozzle {
  an_position : nat;
  an_nozzle : string;
  an_status : string
}.

(** [(i + 1).toString(16).padStart(2, '0').toUpperCase()]. *)
Definition nozzleOfPosition (position : nat) : string :=
  Str.toUpperCase (Str.padStart (Str.toString16 (N.of_nat position)) 2 "0").

(** [statusCodes] in [parseAndDisplayStatus]:
    [data.substring(1, Math.min(33, data.length - 10))]. *)
Definition statusCodesOf (response : string) : string :=
  let data := Str.substring response 1 (Str.len response - 1) in
  Str.substring data 1 (Z.min 33 (Str.len data - 10)).

(** [for (let i = 0; i < statusCodes.length; i++) { ... push ... }],
    [codes] being what is left of [statusCodes] from index [i] on. *)
Fixpoint activeLoop (i : nat) (codes : string) : list ActiveNozzle :=
  match codes with
  | EmptyString => []
  | String code rest =>
      (if negb (Ascii.eqb code "F") && negb (Ascii.eqb code "L")
          && negb (Ascii.eqb code "B")
       then [ mkActiveNozzle (i + 1) (nozzleOfPosition (i + 1))
                (getStatusDescription code) ]
       else [])
      ++ activeLoop (S i) rest
  end.

(** The array [activeNozzles] that [parseAndDisplayStatus] builds ([[]]
    when it returns at once). *)
Definition activeNozzles (response : string) : list ActiveNozzle :=
  if (Str.len response <? 5)%Z then []
  else activeLoop 0 (statusCodesOf response).

Section DisplayStatus.

Variable timestamp : string.

Definition parseAndDisplayStatus (response : string) : list string :=
  match activeNozzles response with
  | [] => []
  | active =>
      ("[" ++ timestamp ++ "] Active Nozzles:")
        :: (map (fun n => ("  Nozzle " ++ an_nozzle n ++ ": " ++ an_status n)%string)
              active ++ [""])%list
  end.

End DisplayStatus.

End Monitor.

(* ===================================================================== *)
(** ** The Go API server (package api): what the handlers reply          *)
(* ===================================================================== *)

Module GoServer.

(** The value a handler hands to [c.JSON] once the client has returned
    [resp] without an error.  A [gin.H] is a map; its entries are listed
    in the order the handler sets them. *)
Inductive Reply : Type :=
| Nil
| EmptyList
| Object (fields : list (string * string))
| Objects (items : list (list (string * string))).

(** A slice or index expression out of range panics: [None]. *)
Notation "x <- m ;; k" :=
  (match m with Some x => k | None => None end)
  (at level 61, m at next level, right associativity).

(** [s[i]]. *)
Definition index (s : string) (i : Z) : option ascii :=
  if ((0 <=? i) && (i <? Str.len s))%Z
  then match Str.drop (Z.to_nat i) s with
       | String c _ => Some c
       | EmptyString => None
       end
  else None.

(** [string(b)] for a byte [b]: the UTF-8 encoding of the code point
    [b]. *)
Definition stringOfByte (c : ascii) : string :=
  let b := Str.code c in
  if (b <? 128)%N then String c EmptyString
  else String (ascii_of_N (192 + b / 64))
         (String (ascii_of_N (128 + b mod 64)) EmptyString).

(** [handleSupply]. *)
Definition supplyReply (resp : string) : option Reply :=
  if String.eqb resp "(0)" then Some Nil
  else if (Str.len resp <? 4)%Z then Some (Object [("raw", resp)])
  else
    data <- Str.slice resp 1 (Str.len resp - 3) ;;
    basic <- (if (24 <=? Str.len data)%Z then
                totalToPay <- Str.slice data 0 6 ;;
                volume <- Str.slice data 6 12 ;;
                price <- Str.slice data 12 16 ;;
                commaCode <- Str.slice data 16 18 ;;
                supplyTime <- Str.slice data 18 22 ;;
                nozzle <- Str.slice data 22 24 ;;
                Some [ ("totalToPay", totalToPay); ("volume", volume);
                       ("price", price); ("commaCode", commaCode);
                       ("supplyTime", supplyTime); ("nozzle", nozzle) ]
              else Some []) ;;
    time <- (if (30 <=? Str.len data)%Z then
               day <- Str.slice data 24 26 ;;
               hour <- Str.slice data 26 28 ;;
               minute <- Str.slice data 28 30 ;;
               Some [ ("day", day); ("hour", hour); ("minute", minute) ]
             else Some []) ;;
    Some (Object (basic ++ time)%list).

(** [for i := 0; i+8 <= len(data); i += 8 { nozzles = append(...) }]; the
    loop runs at most [len(data)] times, which [fuel] is set to. *)
Fixpoint visualizationLoop (fuel : nat) (data : string) (i : Z)
    : option (list (list (string * string))) :=
  match fuel with
  | O => Some []
  | S fuel' =>
      if (i + 8 <=? Str.len data)%Z then
        nozzle <- Str.slice data i (i + 2) ;;
        value <- Str.slice data (i + 2) (i + 8) ;;
        rest <- visualizationLoop fuel' data (i + 8) ;;
        Some ([ ("nozzle", nozzle); ("value", value) ] :: rest)
      else Some []
  end.

(** [handleVisualization]; [nozzles] is still the nil slice when the loop
    has appended nothing. *)
Definition visualizationReply (resp : string) : option Reply :=
  if String.eqb resp "(0)" then Some EmptyList
  else if (Str.len resp <? 2)%Z then Some (Object [("raw", resp)])
  else
    data <- Str.slice resp 1 (Str.len resp - 1) ;;
    nozzles <- visualizationLoop (String.length data) data 0 ;;
    match nozzles with
    | [] => Some Nil
    | _ => Some (Objects nozzles)
    end.

(** [handleTotal]. *)
Definition totalReply (resp : string) : option Reply :=
  if (Str.len resp <? 4)%Z then Some (Object [("raw", resp)])
  else
    data <- Str.slice resp 1 (Str.len resp - 3) ;;
    if (3 <=? Str.len data)%Z then
      mode <- index data 0 ;;
      nozzle <- Str.slice data 1 3 ;;
      value <- Str.slice data 3 (Str.len data) ;;
      Some (Object [ ("raw", resp); ("mode", stringOfByte mode);
                     ("nozzle", nozzle); ("value", value) ])
    else Some (Object [("raw", resp)]).

(** [ensureConnected]: [true] when the handler may go on; [false] when it
    has replied 503. *)
Definition ensureConnected (dial : Go.error) : Go.M bool :=
  Go.bind Go.IsConnected (fun isConnected =>
    if negb isConnected then
      Go.bind (Go.Connect dial) (fun err =>
        match err with
        | Some _ => Go.ret false
        | None => Go.ret true
        end)
    else Go.ret true).

End GoServer.

(* ===================================================================== *)
(** ** What a session keeps true                                         *)
(* ===================================================================== *)

Module Invariant.

(** JavaScript client: [connected] is never [true] without a socket;
    [this.client] is the socket created last; only created sockets were
    destroyed or written to. *)
Definition js (st : JS.Client) : Prop :=
  (JS.connected st = true -> JS.client st <> None) /\
  (forall k, JS.client st = Some k -> S k = JS.created st) /\
  (forall k, In k (JS.destroyed st) -> k < JS.created st) /\
  (forall s command, In (s, command) (JS.wire st) ->
                     exists k, s = Some k /\ k < JS.created st).

(** Go client: [connected] says whether there is a connection; the
    connection is the one dialled last and has not been closed; no
    connection was closed twice; only dialled connections were written
    to. *)
Definition go (c : Go.Client) : Prop :=
  Go.connected c = Go.hasConn c /\
  (forall k, Go.conn c = Some k -> S k = Go.dialed c /\ ~ In k (Go.closed c)) /\
  (forall k, In k (Go.closed c) -> k < Go.dialed c) /\
  NoDup (Go.closed c) /\
  (forall k command, In (k, command) (Go.wire c) -> k < Go.dialed c).

End Invariant.

(* ===================================================================== *)
(** ** The specification's words, for comparison                         *)
(* ===================================================================== *)

Module Spec.

(** Sum of a list of character codes. *)
Definition sumCodes (codes : list N) : N := fold_right N.add 0%N codes.

(** Value of one upper-case hexadecimal digit. *)
Definition hexValue (c : ascii) : option N :=
  let n := Str.code c in
  if ((48 <=? n) && (n <=? 57))%N then Some (n - 48)%N
  else if ((65 <=? n) && (n <=? 70))%N then Some (n - 55)%N
  else None.

(** Value of a string of upper-case hexadecimal digits; [None] when some
    character is not one. *)
Fixpoint parseHexFrom (acc : N) (s : string) : option N :=
  match s with
  | EmptyString => Some acc
  | String c s' =>
      match hexValue c with
      | Some d => parseHexFrom (16 * acc + d)%N s'
      | None => None
      end
  end.

Definition parseHex (s : string) : option N := parseHexFrom 0%N s.

(** "2 uppercase hexadecimal digits, left-padded with '0'", whose value is
    [m]. *)
Definition isChecksumOf (m : N) (s : string) : Prop :=
  String.length s = 2%nat /\ parseHex s = Some m.

(** The body in consecutive windows of [n] characters; what is left when
    fewer than [n] remain is dropped. *)
Fixpoint windows (fuel n : nat) (body : string) : list string :=
  match fuel with
  | O => []
  | S fuel' =>
      if (n <=? String.length body)%nat
      then Str.take n body :: windows fuel' n (Str.drop n body)
      else []
  end.

(** [body[a:b]]: the characters of [body] from offset [a] up to, not
    including, offset [b]; what there is of them when [body] is shorter. *)
Definition field (body : string) (a b : nat) : string :=
  Str.take (b - a) (Str.drop a body).

(** One visualization window: nozzle [[0:2]] and value [[2:8]]. *)
Definition entry (window : string) : string * string :=
  (field window 0 2, field window 2 8).

(** The line printed for one window, the value shown through [show]. *)
Definition entryLine (show : string -> string) (window : string) : string :=
  "  Nozzle " ++ fst (entry window) ++ ": " ++ show (snd (entry window)).

(** The characters of [codes] with their positions, the first one at
    position [i + 1]. *)
Definition positionsFrom (i : nat) (codes : string) : list (nat * ascii) :=
  combine (seq (S i) (String.length codes)) (list_ascii_of_string codes).

(** The characters of [codes] with their positions, counted from 1. *)
Definition positions (codes : string) : list (nat * ascii) :=
  positionsFrom 0 codes.

(** A position the test client prints: any code but ["F"]. *)
Definition present (pc : nat * ascii) : bool :=
  negb (Ascii.eqb (snd pc) "F").

(** The line the test client prints for a position and its code. *)
Definition statusLine (pc : nat * ascii) : string :=
  "  Position " ++ Str.decimal (fst pc) ++ ": "
    ++ String (snd pc) EmptyString
    ++ " (" ++ TestClient.statusText (snd pc) ++ ")".

(** A position the monitor reports: any code but ["F"], ["L"], ["B"]. *)
Definition active (pc : nat * ascii) : bool :=
  negb (Ascii.eqb (snd pc) "F") && negb (Ascii.eqb (snd pc) "L")
    && negb (Ascii.eqb (snd pc) "B").

(** What the monitor reports for a position and its code. *)
Definition activeNozzle (pc : nat * ascii) : Monitor.ActiveNozzle :=
  Monitor.mkActiveNozzle (fst pc) (Monitor.nozzleOfPosition (fst pc))
    (Monitor.getStatusDescription (snd pc)).

(** The body cut into pieces of [n] characters, the last one shorter when
    the length is not a multiple of [n]. *)
Fixpoint pieces (fuel n : nat) (body : string) : list string :=
  match fuel with
  | O => []
  | S fuel' =>
      if (String.length body =? 0)%nat then []
      else Str.take n body :: pieces fuel' n (Str.drop n body)
  end.

(** What the Go server replies for one visualization window. *)
Definition entryObject (window : string) : list (string * string) :=
  [ ("nozzle", fst (entry window)); ("value", snd (entry window)) ].

(** Does [render m] have two characters that read back as [m]? *)
Definition rendersByte (render : N -> string) (m : N) : bool :=
  (String.length (render m) =? 2)%nat &&
  match parseHex (render m) with
  | Some v => (v =? m)%N
  | None => false
  end.

End Spec.

(* ===================================================================== *)
(** ** Facts about the string primitives                                 *)
(* ===================================================================== *)

Lemma length_take (n : nat) (s : string) :
  String.length (Str.take n s) = Nat.min n (String.length s).
Proof.
  revert s; induction n as [|n IH]; intros [|c s]; simpl; auto.
Qed.

Lemma length_drop (n : nat) (s : string) :
  String.length (Str.drop n s) = (String.length s - n)%nat.
Proof.
  revert s; induction n as [|n IH]; intros [|c s]; simpl; auto.
Qed.

Lemma length_app (s t : string) :
  String.length (s ++ t) = (String.length s + String.length t)%nat.
Proof.
  induction s as [|c s IH]; simpl; auto.
Qed.

Lemma app_empty_r (s : string) : s ++ "" = s.
Proof.
  induction s as [|c s IH]; simpl; congruence.
Qed.

Lemma app_assoc (s t u : string) : (s ++ t) ++ u = s ++ t ++ u.
Proof.
  induction s as [|c s IH]; simpl; congruence.
Qed.

Lemma take_all (n : nat) (s : string) :
  (String.length s <= n)%nat -> Str.take n s = s.
Proof.
  revert s; induction n as [|n IH]; intros [|c s]; simpl; intros H;
    try reflexivity; try lia.
  f_equal. apply IH. lia.
Qed.

Lemma take_app_exact (s t : string) :
  Str.take (String.length s) (s ++ t) = s.
Proof.
  induction s as [|c s IH]; simpl; [destruct t; reflexivity | congruence].
Qed.

Lemma drop_app_exact (s t : string) :
  Str.drop (String.length s) (s ++ t) = t.
Proof.
  induction s as [|c s IH]; simpl; auto.
Qed.

Lemma drop_drop (n m : nat) (s : string) :
  Str.drop n (Str.drop m s) = Str.drop (m + n) s.
Proof.
  revert s; induction m as [|m IH]; intros s; simpl; auto.
  destruct s as [|c s]; simpl; [destruct n; reflexivity | apply IH].
Qed.

Lemma length_replicate (n : nat) (c : ascii) :
  String.length (Str.replicate n c) = n.
Proof.
  induction n; simpl; auto.
Qed.

(** [substring] with indices in order and in range is the plain slice. *)
Lemma substring_in_range (s : string) (a b : Z) :
  (0 <= a <= b)%Z -> (b <= Str.len s)%Z ->
  Str.substring s a b = Str.take (Z.to_nat (b - a)) (Str.drop (Z.to_nat a) s).
Proof.
  intros Hab Hb. unfold Str.substring, Str.clamp, Str.len in *.
  rewrite !Z.max_l, !Z.min_l by lia.
  rewrite Nat.min_l, Nat.max_r by lia.
  f_equal. lia.
Qed.

(** [substring] with the lower index in range and the upper one beyond the
    end stops at the end. *)
Lemma substring_to_end (s : string) (a b : Z) :
  (0 <= a <= Str.len s)%Z -> (Str.len s <= b)%Z ->
  Str.substring s a b = Str.drop (Z.to_nat a) s.
Proof.
  intros Ha Hb. unfold Str.substring, Str.clamp, Str.len in *.
  rewrite (Z.max_l a), (Z.max_l b), (Z.min_l a), (Z.min_r b) by lia.
  rewrite Nat.min_l, Nat.max_r by lia.
  apply take_all. rewrite length_drop. lia.
Qed.

(** [substring] beyond the end on both sides is empty. *)
Lemma substring_beyond (s : string) (a b : Z) :
  (Str.len s <= a)%Z -> (Str.len s <= b)%Z -> Str.substring s a b = "".
Proof.
  intros Ha Hb. unfold Str.substring, Str.clamp, Str.len in *.
  rewrite (Z.max_l a), (Z.max_l b), (Z.min_r a), (Z.min_r b) by lia.
  rewrite Nat.min_id, Nat.max_id, Nat.sub_diag. reflexivity.
Qed.

(** Stripping [k] leading characters' worth of frame: the data of a
    response made of one opening character, a body and a trailer. *)
Lemma substring_strip (c : ascii) (body trailer : string) (k : Z) :
  k = Z.of_nat (String.length trailer) ->
  Str.substring (String c (body ++ trailer)) 1
    (Str.len (String c (body ++ trailer)) - k) = body.
Proof.
  intros ->. rewrite substring_in_range.
  - unfold Str.len. simpl String.length. rewrite length_app.
    replace (Z.to_nat _) with (String.length body) by lia.
    simpl. apply take_app_exact.
  - unfold Str.len. simpl String.length. rewrite length_app. lia.
  - unfold Str.len. lia.
Qed.

(* ===================================================================== *)
(** ** Checksum                                                          *)
(* ===================================================================== *)

Lemma js_sumLoop_spec (codes : list N) (acc : N) :
  JS.sumLoop codes acc = (acc + Spec.sumCodes codes)%N.
Proof.
  revert acc; induction codes as [|c codes IH]; intros acc; simpl.
  - lia.
  - rewrite IH. lia.
Qed.

Lemma go_sumLoop_spec (rs : list N) (acc : N) :
  Go.sumLoop rs acc = (acc + Spec.sumCodes rs)%N.
Proof.
  revert acc; induction rs as [|r rs IH]; intros acc; simpl.
  - lia.
  - rewrite IH. lia.
Qed.

Lemma land_255 (n : N) : N.land n 255 = (n mod 256)%N.
Proof.
  change 255%N with (N.ones 8). rewrite N.land_ones. reflexivity.
Qed.

(** A check that holds on each of the 256 byte values holds on all. *)
Lemma forall_bytes (P : N -> bool) :
  forallb P (map N.of_nat (seq 0 256)) = true ->
  forall m : N, (m < 256)%N -> P m = true.
Proof.
  intros H m Hm. rewrite forallb_forall in H. apply H.
  rewrite <- (N2Nat.id m). apply in_map. apply in_seq. lia.
Qed.

Lemma rendersByte_sound (render : N -> string) (m : N) :
  Spec.rendersByte render m = true -> Spec.isChecksumOf m (render m).
Proof.
  unfold Spec.rendersByte, Spec.isChecksumOf. intros H.
  apply andb_true_iff in H. destruct H as [Hl Hv].
  apply Nat.eqb_eq in Hl. split; [exact Hl|].
  destruct (Spec.parseHex (render m)) as [v|]; [|discriminate].
  apply N.eqb_eq in Hv. congruence.
Qed.

Lemma jsRender_byte (m : N) :
  (m < 256)%N ->
  Spec.isChecksumOf m (Str.padStart (Str.toUpperCase (Str.toString16 m)) 2 "0").
Proof.
  intros Hm.
  apply (rendersByte_sound
           (fun m => Str.padStart (Str.toUpperCase (Str.toString16 m)) 2 "0")).
  revert m Hm. apply forall_bytes. vm_compute. reflexivity.
Qed.

Lemma fmt02X_byte (m : N) :
  (m < 256)%N -> Spec.isChecksumOf m (Go.fmt02X m).
Proof.
  intros Hm. apply rendersByte_sound.
  revert m Hm. apply forall_bytes. vm_compute. reflexivity.
Qed.

(** C1. [calculateChecksum] sums the character codes of its argument from
    the second character on, keeps the low 8 bits, and renders them as
    exactly two upper-case hexadecimal digits (zero-padded on the left):
    the result has length 2 and reads back, as upper-case hexadecimal, as
    that sum modulo 256.  This holds for the JavaScript method and for its
    Go port, and the checksum of ["(&T08L"] is ["2E"]. *)
Theorem calculateChecksum_spec :
  (forall s : string,
      Spec.isChecksumOf (Spec.sumCodes (tl (Str.charCodes s)) mod 256)%N
                        (JS.calculateChecksum s)) /\
  (forall s : string,
      Spec.isChecksumOf (Spec.sumCodes (tl (Go.runes s)) mod 256)%N
                        (Go.calculateChecksum s)) /\
  JS.calculateChecksum "(&T08L" = "2E" /\
  Go.calculateChecksum "(&T08L" = "2E".
Proof.
  repeat split; try reflexivity.
  - unfold JS.calculateChecksum.
    rewrite js_sumLoop_spec, N.add_0_l, land_255.
    apply (jsRender_byte _ (N.mod_lt _ 256 ltac:(discriminate))).
  - unfold JS.calculateChecksum.
    rewrite js_sumLoop_spec, N.add_0_l, land_255.
    apply (jsRender_byte _ (N.mod_lt _ 256 ltac:(discriminate))).
  - unfold Go.calculateChecksum.
    rewrite go_sumLoop_spec, N.add_0_l, land_255.
    apply (fmt02X_byte _ (N.mod_lt _ 256 ltac:(discriminate))).
  - unfold Go.calculateChecksum.
    rewrite go_sumLoop_spec, N.add_0_l, land_255.
    apply (fmt02X_byte _ (N.mod_lt _ 256 ltac:(discriminate))).
Qed.

(* ===================================================================== *)
(** ** Transport session: reading the reply                              *)
(* ===================================================================== *)

Lemma splitAfter_app (d : ascii) (a b : string) :
  Str.splitAfter d (a ++ b) =
  match Str.splitAfter d a with
  | Some (p, r) => Some (p, r ++ b)
  | None =>
      match Str.splitAfter d b with
      | Some (p, r) => Some (a ++ p, r)
      | None => None
      end
  end.
Proof.
  induction a as [|c a IH]; simpl.
  - destruct (Str.splitAfter d b) as [[p r]|]; reflexivity.
  - destruct (Ascii.eqb c d); [reflexivity|].
    rewrite IH.
    destruct (Str.splitAfter d a) as [[p r]|]; [reflexivity|].
    destruct (Str.splitAfter d b) as [[p r]|]; reflexivity.
Qed.

(** However the stream is cut into chunks, [ReadString] returns the data
    up to and including the first delimiter of the stream. *)
Lemma ReadString_chunking (d : ascii) (cs : list string) (e : string) :
  forall (acc reply rest : string),
    Str.splitAfter d (Str.concat cs) = Some (reply, rest) ->
    Go.ReadString d cs e acc = (acc ++ reply, None).
Proof.
  induction cs as [|c cs IH]; intros acc reply rest H; simpl in *.
  - discriminate.
  - rewrite splitAfter_app in H.
    destruct (Str.splitAfter d c) as [[p r]|].
    + injection H as <- _. reflexivity.
    + destruct (Str.splitAfter d (Str.concat cs)) as [[p r]|] eqn:E;
        [|discriminate].
      injection H as <- <-.
      rewrite (IH (acc ++ c) p r eq_refl). now rewrite app_assoc.
Qed.

(** The Go [SendCommand] on a connected session whose write succeeds
    returns the whole reply, whatever the chunking. *)
Lemma go_SendCommand_whole_reply (command : string) (cs : list string)
    (e reply rest : string) (k : nat) (c : Go.Client) :
  Go.connected c = true -> Go.conn c = Some k -> Go.mu c = false ->
  Str.splitAfter ")" (Str.concat cs) = Some (reply, rest) ->
  Go.SendCommand command (Go.mkNet None cs e) c =
  Go.Returns (reply, None)
    (Go.mkClient (Go.conn c) (Go.connected c) false (Go.dialed c)
                 (Go.closed c) (Go.wire c ++ [(k, command)])).
Proof.
  intros Hc Hk Hm Hs. destruct c as [cn cd m dl cl w]. simpl in *. subst.
  unfold Go.SendCommand, Go.locked, Go.bind, Go.Lock, Go.get, Go.Write,
    Go.hasConn, Go.Unlock, Go.ret. simpl.
  rewrite (ReadString_chunking _ _ _ "" reply rest Hs). reflexivity.
Qed.

(** The JavaScript [sendCommand] on a connected session resolves with the
    first chunk alone. *)
Lemma js_sendCommand_first_chunk (command data : string) (more : list string)
    (st : JS.Client) :
  JS.connected st = true ->
  fst (JS.sendCommand command (data :: more) st) =
  JS.Resolved (JS.asciiDecode data).
Proof.
  intros H. unfold JS.sendCommand. rewrite H. reflexivity.
Qed.

(** C2.  The reply ["(0)"] delivered as the two chunks ["(0"] and [")"]:
    the JavaScript [sendCommand] writes the frame and resolves with ["(0"],
    the first chunk, not with the reply up to its closing [")"]; the Go
    [SendCommand] returns ["(0)"] on the same input. *)
Theorem sendCommand_split_reply :
  let st := JS.mkClient (Some 0%nat) true 1 [] 0 [] in
  let c := Go.mkClient (Some 0%nat) true false 1 [] [] in
  JS.sendCommand "(&S)" ["(0"; ")"] st =
    (JS.Resolved "(0",
     JS.mkClient (Some 0%nat) true 1 [] 0 [(Some 0%nat, "(&S)")]) /\
  JS.Resolved "(0" <> JS.Resolved "(0)" /\
  Str.splitAfter ")" (Str.concat ["(0"; ")"]) = Some ("(0)", "") /\
  Go.SendCommand "(&S)" (Go.mkNet None ["(0"; ")"] "i/o timeout") c =
    Go.Returns ("(0)", None)
      (Go.mkClient (Some 0%nat) true false 1 [] [(0%nat, "(&S)")]).
Proof.
  repeat split. discriminate.
Qed.

(* ===================================================================== *)
(** ** Transport session: timeout                                        *)
(* ===================================================================== *)

(** With no data at all before the deadline, the Go [SendCommand] never
    returns: its call of [Disconnect] waits for the mutex that
    [SendCommand] itself holds. *)
Lemma go_SendCommand_timeout_blocks (command e : string) (k : nat)
    (c : Go.Client) :
  Go.connected c = true -> Go.conn c = Some k -> Go.mu c = false ->
  exists c', Go.SendCommand command (Go.mkNet None [] e) c = Go.Blocks c' /\
             Go.connected c' = true /\ Go.closed c' = Go.closed c.
Proof.
  intros Hc Hk Hm. destruct c as [cn cd m dl cl w]. simpl in *. subst.
  eexists. split; [reflexivity|]. split; reflexivity.
Qed.

(** With some data but no delimiter before the deadline, the Go
    [SendCommand] returns that data as a success and stays connected. *)
Example go_SendCommand_timeout_partial :
  Go.SendCommand "(&S)" (Go.mkNet None ["(SLL"] "i/o timeout")
    (Go.mkClient (Some 0%nat) true false 1 [] []) =
  Go.Returns ("(SLL", None)
    (Go.mkClient (Some 0%nat) true false 1 [] [(0%nat, "(&S)")]).
Proof. reflexivity. Qed.

(** C3, as the claim states it, fails: after a timeout the JavaScript
    session is still connected and its socket has not been destroyed. *)
Lemma sendCommand_timeout_still_connected :
  let st := JS.mkClient (Some 0%nat) true 1 [] 0 [] in
  let r := JS.sendCommand "(&S)" [] st in
  fst r = JS.Rejected "Response timeout" /\
  JS.connected (snd r) <> false /\
  ~ In 0%nat (JS.destroyed (snd r)).
Proof.
  simpl. repeat split; [discriminate | tauto].
Qed.

(** C3, amended.  When nothing arrives before the timer fires, the
    JavaScript [sendCommand] on a connected session rejects with
    ["Response timeout"] and leaves the session as it was, apart from the
    frame it wrote and the listener it registered: [connected] is still
    [true], [client] is the same socket and no socket was destroyed. *)
Theorem js_timeout_keeps_session (command : string) (st : JS.Client) :
  JS.connected st = true ->
  JS.sendCommand command [] st =
  (JS.Rejected "Response timeout",
   JS.mkClient (JS.client st) true (JS.created st) (JS.destroyed st)
               (S (JS.dataListeners st))
               (JS.wire st ++ [(JS.client st, command)])).
Proof.
  intros H. unfold JS.sendCommand. rewrite H. reflexivity.
Qed.

Lemma js_timeout_keeps_session_witness :
  JS.connected (JS.mkClient (Some 0%nat) true 1 [] 0 []) = true /\
  JS.sendCommand "(&S)" [] (JS.mkClient (Some 0%nat) true 1 [] 0 []) =
  (JS.Rejected "Response timeout",
   JS.mkClient (Some 0%nat) true 1 [] 1 [(Some 0%nat, "(&S)")]).
Proof.
  split; [reflexivity|].
  apply (js_timeout_keeps_session "(&S)" (JS.mkClient (Some 0%nat) true 1 [] 0 [])).
  reflexivity.
Defined.

(* ===================================================================== *)
(** ** Transport session: connect                                        *)
(* ===================================================================== *)

(** The JavaScript [connect] on a session that is already connected is
    not a no-op.  It creates a second socket and makes it the current one
    (the first is neither destroyed nor kept), and when that attempt
    fails the session is left disconnected. *)
Lemma connect_when_connected_not_noop :
  let st := JS.mkClient (Some 0%nat) true 1 [] 0 [] in
  snd (JS.connect JS.Established st) <> st /\
  JS.client (snd (JS.connect JS.Established st)) = Some 1%nat /\
  JS.created (snd (JS.connect JS.Established st)) = 2%nat /\
  JS.connect (JS.SocketError "ECONNREFUSED") st =
    (JS.Rejected "ECONNREFUSED", JS.mkClient (Some 1%nat) false 2 [] 0 []).
Proof.
  simpl. repeat split. discriminate.
Qed.

Lemma go_Connect_connected (dial : Go.error) (c : Go.Client) :
  Go.connected c = true -> Go.hasConn c = true -> Go.mu c = false ->
  Go.Connect dial c = Go.Returns None c.
Proof.
  intros Hc Hk Hm. destruct c as [[k|] cd m dl cl w]; simpl in *; subst;
    [reflexivity | discriminate].
Qed.

Lemma go_Connect_failure (e : string) (c : Go.Client) :
  Go.connected c && Go.hasConn c = false -> Go.mu c = false ->
  Go.Connect (Some e) c = Go.Returns (Some e) c.
Proof.
  intros Hg Hm. destruct c as [[k|] [|] m dl cl w]; simpl in *; subst;
    try discriminate; reflexivity.
Qed.

Lemma go_Connect_success (c : Go.Client) :
  Go.connected c && Go.hasConn c = false -> Go.mu c = false ->
  Go.Connect None c =
  Go.Returns None
    (Go.mkClient (Some (Go.dialed c)) true false (S (Go.dialed c))
                 (Go.closed c) (Go.wire c)).
Proof.
  intros Hg Hm. destruct c as [[k|] [|] m dl cl w]; simpl in *; subst;
    try discriminate; reflexivity.
Qed.

(** What [connect] does, client by client.  The Go [Connect], called
    with the mutex free: on a session that is already connected it
    returns [nil] without dialling and without changing anything;
    otherwise it dials, and it makes the session connected when the dial
    succeeds and changes nothing when it fails.  The JavaScript [connect]
    has no such guard: every call creates a new socket and makes it
    [this.client]; the session is connected afterwards exactly when that
    attempt succeeded. *)
Theorem connect_spec (c : Go.Client) (st : JS.Client) :
  Go.mu c = false ->
  (forall dial,
      Go.connected c = true -> Go.hasConn c = true ->
      Go.Connect dial c = Go.Returns None c) /\
  (forall dial,
      Go.connected c && Go.hasConn c = false ->
      exists c', Go.Connect dial c = Go.Returns dial c' /\
                 (dial = None -> Go.connected c' = true /\
                                 Go.conn c' = Some (Go.dialed c)) /\
                 (dial <> None -> c' = c)) /\
  (forall ev,
      JS.client (snd (JS.connect ev st)) = Some (JS.created st) /\
      JS.created (snd (JS.connect ev st)) = S (JS.created st) /\
      (JS.connected (snd (JS.connect ev st)) = true <->
       fst (JS.connect ev st) = JS.Resolved tt)).
Proof.
  intros Hm. split; [|split].
  - intros dial Hc Hk. now apply go_Connect_connected.
  - intros [e|] Hg.
    + exists c. split; [now apply go_Connect_failure|].
      split; [discriminate | reflexivity].
    + eexists. split; [now apply go_Connect_success|].
      split; [intros _; split; reflexivity | congruence].
  - intros [|msg]; simpl; repeat split; intros; try reflexivity;
      discriminate.
Qed.

Lemma connect_spec_witness :
  Go.mu (Go.mkClient (Some 0%nat) true false 1 [] []) = false /\
  Go.Connect (Some "refused") (Go.mkClient (Some 0%nat) true false 1 [] []) =
    Go.Returns None (Go.mkClient (Some 0%nat) true false 1 [] []).
Proof.
  split; [reflexivity|].
  apply (connect_spec (Go.mkClient (Some 0%nat) true false 1 [] [])
                      JS.newClient eq_refl);
    reflexivity.
Defined.

(** C4.  [connect] called on a session that is already connected.  The
    JavaScript [connect()] is not a no-op: it creates a second socket and
    makes it [this.client], and the first socket is left as it is, not
    destroyed; when the second attempt fails the session is left
    disconnected.  The Go [Connect] called in the same situation returns
    [nil] at once, whatever a dial would give, and leaves the session with
    its one connection. *)
Theorem connect_twice_replaces_socket :
  JS.run [JS.CallConnect JS.Established; JS.CallConnect JS.Established]
    JS.newClient =
    JS.mkClient (Some 1%nat) true 2 [] 0 [] /\
  JS.run [JS.CallConnect JS.Established;
          JS.CallConnect (JS.SocketError "ECONNREFUSED")]
    JS.newClient =
    JS.mkClient (Some 1%nat) false 2 [] 0 [] /\
  JS.run [JS.CallConnect JS.Established] JS.newClient =
    JS.mkClient (Some 0%nat) true 1 [] 0 [] /\
  (forall dial : Go.error,
      Go.bind (Go.Connect None) (fun _ => Go.Connect dial) Go.NewClient =
      Go.Returns None (Go.mkClient (Some 0%nat) true false 1 [] [])) /\
  Go.Connect None Go.NewClient =
    Go.Returns None (Go.mkClient (Some 0%nat) true false 1 [] []).
Proof.
  repeat split.
Qed.

(* ===================================================================== *)
(** ** Response parsers: the sentinel                                    *)
(* ===================================================================== *)

(** C5, as the claim states it, fails: the status parser has no case for
    the sentinel; it prints ["(0)"] as a status whose raw body is ["0"],
    and the parser of totals prints nothing.  Neither output is one of the
    "no data" messages. *)
Lemma sentinel_status_total_not_no_data :
  ~ (exists m, In m TestClient.noDataMessages /\
               TestClient.parseStatusResponse "(0)" = [m]) /\
  ~ (exists m, In m TestClient.noDataMessages /\
               TestClient.parseTotalResponse "(0)" = [m]).
Proof.
  split; intros [m [_ H]]; vm_compute in H; discriminate.
Qed.

(** C5, amended.  On the sentinel ["(0)"] the supply, identified-supply
    and visualization parsers print their "no data" message and nothing
    else.  The status and total parsers have no case for the sentinel and
    decode it as any other response, without failing: the status parser
    prints its headings with the raw status ["0"] and no nozzle line, the
    total parser (whose data is ["("], too short) prints nothing. *)
Theorem sentinel_decoding :
  TestClient.parseSupplyResponse "(0)" = ["No supply data available."] /\
  TestClient.parseSupplyIdentifiedResponse "(0)" =
    ["No supply data available."] /\
  TestClient.parseVisualizationResponse "(0)" =
    ["No dispensing in progress."] /\
  TestClient.parseStatusResponse "(0)" =
    [ TestClient.nl ++ "Status Information:";
      "  Raw Status: 0";
      TestClient.nl ++ "Nozzle Status:" ] /\
  Str.substring "(0)" 1 (Str.len "(0)" - 3) = "(" /\
  TestClient.parseTotalResponse "(0)" = [].
Proof.
  repeat split.
Qed.

(* ===================================================================== *)
(** ** Response parsers: supply                                          *)
(* ===================================================================== *)

(** [substring] with non-negative indices in order is [Spec.field]. *)
Lemma substring_field (s : string) (a b : Z) :
  (0 <= a <= b)%Z ->
  Str.substring s a b = Spec.field s (Z.to_nat a) (Z.to_nat b).
Proof.
  intros Hab. unfold Spec.field.
  destruct (Z.le_gt_cases b (Str.len s)) as [Hb|Hb].
  - rewrite substring_in_range by lia. f_equal. lia.
  - destruct (Z.le_gt_cases a (Str.len s)) as [Ha|Ha].
    + rewrite substring_to_end by lia. symmetry. apply take_all.
      rewrite length_drop. unfold Str.len in *. lia.
    + rewrite substring_beyond by lia. symmetry.
      assert (E : Str.drop (Z.to_nat a) s = "").
      { assert (L := length_drop (Z.to_nat a) s).
        destruct (Str.drop (Z.to_nat a) s); [reflexivity|].
        unfold Str.len in *. simpl in L. lia. }
      rewrite E. destruct (Z.to_nat b - Z.to_nat a)%nat; reflexivity.
Qed.

(** A response with a body and a three-character trailer is not the
    sentinel. *)
Lemma framed_not_sentinel (c : ascii) (body trailer : string) :
  String.length trailer = 3%nat ->
  String.eqb (String c (body ++ trailer)) "(0)" = false.
Proof.
  intros H. apply String.eqb_neq. intros E.
  apply (f_equal String.length) in E. simpl in E.
  rewrite length_app in E. lia.
Qed.

(** For a response with a 30-character body the supply parser prints no
    field at all, and the record of [parseSupplyRecord] has its extended
    fields set, to the empty string. *)
Lemma supply_30_no_fields :
  let response := "(012345678901234567890123456789A5)" in
  Str.len (Str.substring response 1 (Str.len response - 3)) = 30%Z /\
  TestClient.parseSupplyResponse response = [] /\
  Monitor.finalTotal (Monitor.parseSupplyRecord response) = "".
Proof.
  repeat split.
Qed.

Ltac supply_fields :=
  rewrite ?substring_field by lia;
  repeat match goal with
         | |- context [Z.to_nat ?k] =>
             let n := eval vm_compute in (Z.to_nat k) in
             change (Z.to_nat k) with n
         end.

(** What the two supply parsers do at every length.  For a response made
    of an opening character, a body and three trailing characters, the
    supply parser of the test client decodes the body: it
    prints all 13 fields, each the slice of the body at its offsets
    ([finalTotal] at [[36:46]]), when the body has at least 52 characters;
    exactly the first 9 fields ([totalToPay] to [minute]) when it has 34
    to 51; and nothing when it has fewer than 34 (a 30-character body
    included).  [parseSupplyRecord] returns all 13 fields whatever the
    length, each the slice of the body at its offsets, empty where the
    body ends before it.  Neither fails. *)
Theorem parseSupply_spec (c : ascii) (body trailer : string) :
  String.length trailer = 3%nat ->
  let response := String c (body ++ trailer) in
  let f := Spec.field body in
  let basic :=
    [ TestClient.nl ++ "Supply Data:";
      "  Total to Pay: " ++ f 0 6;
      "  Volume: " ++ f 6 12;
      "  Price: " ++ f 12 16;
      "  Comma Code: " ++ f 16 18;
      "  Supply Time: " ++ f 18 22;
      "  Nozzle Code: " ++ f 22 24;
      "  Day: " ++ f 24 26;
      "  Hour: " ++ f 26 28;
      "  Minute: " ++ f 28 30 ]%nat in
  let extended :=
    [ "  Month: " ++ f 30 32;
      "  Record: " ++ f 32 36;
      "  Final Total: " ++ f 36 46;
      "  Status: " ++ f 46 48 ]%nat in
  (52 <= String.length body ->
   TestClient.parseSupplyResponse response = basic ++ extended)%nat%list /\
  (34 <= String.length body < 52 ->
   TestClient.parseSupplyResponse response = basic)%nat /\
  (String.length body < 34 ->
   TestClient.parseSupplyResponse response = [])%nat /\
  Monitor.parseSupplyRecord response =
    Monitor.mkSupplyRecord (f 0 6) (f 6 12) (f 12 16) (f 16 18) (f 18 22)
      (f 22 24) (f 24 26) (f 26 28) (f 28 30) (f 30 32) (f 32 36)
      (f 36 46) (f 46 48)%nat /\
  (String.length body <= 30 ->
   f 30 32 = "" /\ f 32 36 = "" /\ f 36 46 = "" /\ f 46 48 = "")%nat.
Proof.
  intros Ht response f basic extended.
  assert (Hd : Str.substring response 1 (Str.len response - 3) = body).
  { apply substring_strip. lia. }
  assert (Hs : String.eqb response "(0)" = false)
    by now apply framed_not_sentinel.
  unfold TestClient.parseSupplyResponse, Monitor.parseSupplyRecord.
  rewrite Hs, Hd. unfold Str.len.
  repeat split.
  - intros H.
    destruct (Z.leb_spec 34 (Z.of_nat (String.length body))); [|lia].
    destruct (Z.leb_spec 52 (Z.of_nat (String.length body))); [|lia].
    subst basic extended f. supply_fields. reflexivity.
  - intros H.
    destruct (Z.leb_spec 34 (Z.of_nat (String.length body))); [|lia].
    destruct (Z.leb_spec 52 (Z.of_nat (String.length body))); [lia|].
    subst basic f. supply_fields. reflexivity.
  - intros H.
    destruct (Z.leb_spec 34 (Z.of_nat (String.length body))); [lia|].
    reflexivity.
  - subst f. supply_fields. reflexivity.
  - subst f. unfold Spec.field.
    assert (E : Str.drop 30 body = "").
    { assert (L := length_drop 30 body).
      destruct (Str.drop 30 body); [reflexivity | simpl in L; lia]. }
    rewrite <- (drop_drop 0 30), E. reflexivity.
  - subst f. unfold Spec.field.
    assert (E : Str.drop 32 body = "").
    { assert (L := length_drop 32 body).
      destruct (Str.drop 32 body); [reflexivity | simpl in L; lia]. }
    rewrite E. reflexivity.
  - subst f. unfold Spec.field.
    assert (E : Str.drop 36 body = "").
    { assert (L := length_drop 36 body).
      destruct (Str.drop 36 body); [reflexivity | simpl in L; lia]. }
    rewrite E. reflexivity.
  - subst f. unfold Spec.field.
    assert (E : Str.drop 46 body = "").
    { assert (L := length_drop 46 body).
      destruct (Str.drop 46 body); [reflexivity | simpl in L; lia]. }
    rewrite E. reflexivity.
Qed.

Lemma parseSupply_spec_witness :
  String.length "A5)" = 3%nat /\
  TestClient.parseSupplyResponse
    "(0012340005671234000100081507300412340000123456010000A5)" =
  [ TestClient.nl ++ "Supply Data:";
    "  Total to Pay: 001234"; "  Volume: 000567"; "  Price: 1234";
    "  Comma Code: 00"; "  Supply Time: 0100"; "  Nozzle Code: 08";
    "  Day: 15"; "  Hour: 07"; "  Minute: 30";
    "  Month: 04"; "  Record: 1234"; "  Final Total: 0000123456";
    "  Status: 01" ].
Proof.
  split; [reflexivity|].
  apply (proj1 (parseSupply_spec "("
                  "0012340005671234000100081507300412340000123456010000"
                  "A5)" eq_refl)).
  simpl. lia.
Defined.

(** C6.  Supply decoding of a response with a 30-character body.  The
    test client's [parseSupplyResponse] prints no field at all: the nine
    basic fields end at offset 30, but its guard is [data.length >= 34].
    From the same response the monitor's [parseSupplyRecord] fills the
    nine basic fields (the extended ones are empty) and the Go server's
    supply handler replies with the nine basic fields.  The second guard,
    [data.length >= 52], is off in the same way: from a 52-character
    frame, whose data is 48 characters long, the test client prints the
    nine basic fields and none of the extended ones, which are all
    there. *)
Theorem parseSupplyResponse_short_body :
  let response := "(001234000567123400010008150730A5)" in
  let frame52 := "(001234000567123400010008150730041234000012345601A5)" in
  Str.substring response 1 (Str.len response - 3) =
    "001234000567123400010008150730" /\
  String.length "001234000567123400010008150730" = 30%nat /\
  TestClient.parseSupplyResponse response = [] /\
  Monitor.parseSupplyRecord response =
    Monitor.mkSupplyRecord "001234" "000567" "1234" "00" "0100" "08"
      "15" "07" "30" "" "" "" "" /\
  GoServer.supplyReply response =
    Some (GoServer.Object
            [ ("totalToPay", "001234"); ("volume", "000567");
              ("price", "1234"); ("commaCode", "00");
              ("supplyTime", "0100"); ("nozzle", "08");
              ("day", "15"); ("hour", "07"); ("minute", "30") ]) /\
  String.length frame52 = 52%nat /\
  TestClient.parseSupplyResponse frame52 =
    [ TestClient.nl ++ "Supply Data:";
      "  Total to Pay: 001234"; "  Volume: 000567"; "  Price: 1234";
      "  Comma Code: 00"; "  Supply Time: 0100"; "  Nozzle Code: 08";
      "  Day: 15"; "  Hour: 07"; "  Minute: 30" ] /\
  Monitor.finalTotal (Monitor.parseSupplyRecord frame52) = "0000123456".
Proof.
  repeat split.
Qed.

(* ===================================================================== *)
(** ** Response parsers: visualization                                   *)
(* ===================================================================== *)

(** C7.  On the 16-character body of the example both visualization
    parsers print exactly the two entries [08 / 010000] and [12 / 500020].
    On the 11-character body ["08010000125"] the monitor's parser drops
    the partial window ["125"], and the test client's parser prints it as
    a second entry, nozzle ["12"] with value ["5"]: its loop has no test
    that a whole window is left. *)
Theorem parseVisualizationResponse_partial_window :
  TestClient.parseVisualizationResponse "(0801000012500020)" =
    [ TestClient.nl ++ "Ongoing Dispensing:";
      "  Nozzle 08: 010000"; "  Nozzle 12: 500020" ] /\
  (forall timestamp formatValue,
      Monitor.parseAndDisplayVisualization timestamp formatValue
        "(0801000012500020)" =
      [ "[" ++ timestamp ++ "] Dispensing:";
        "  Nozzle 08: " ++ formatValue "010000";
        "  Nozzle 12: " ++ formatValue "500020"; "" ]) /\
  (forall timestamp formatValue,
      Monitor.parseAndDisplayVisualization timestamp formatValue
        "(08010000125)" =
      [ "[" ++ timestamp ++ "] Dispensing:";
        "  Nozzle 08: " ++ formatValue "010000"; "" ]) /\
  TestClient.parseVisualizationResponse "(08010000125)" =
    [ TestClient.nl ++ "Ongoing Dispensing:";
      "  Nozzle 08: 010000"; "  Nozzle 12: 5" ].
Proof.
  repeat split.
Qed.

Lemma take_take (n m : nat) (s : string) :
  Str.take n (Str.take m s) = Str.take (Nat.min n m) s.
Proof.
  revert m s; induction n as [|n IH]; intros [|m] [|c s]; simpl; auto.
  now rewrite IH.
Qed.

Lemma drop_take (a b : nat) (s : string) :
  Str.drop a (Str.take b s) = Str.take (b - a) (Str.drop a s).
Proof.
  revert b s; induction a as [|a IH]; intros b s; simpl.
  - now rewrite Nat.sub_0_r.
  - destruct b as [|b], s as [|c s]; simpl; auto.
    destruct (b - a)%nat; reflexivity.
Qed.

Lemma drop_past_end (n : nat) (s : string) :
  (String.length s <= n)%nat -> Str.drop n s = "".
Proof.
  intros H. assert (L := length_drop n s).
  destruct (Str.drop n s); [reflexivity | simpl in L; lia].
Qed.

(** The two slices a parser takes at offset [i] are the nozzle and the
    value of the window that starts there. *)
Lemma window_entry (data : string) (i : nat) :
  (Str.substring data (Z.of_nat i) (Z.of_nat i + 2),
   Str.substring data (Z.of_nat i + 2) (Z.of_nat i + 8)) =
  Spec.entry (Str.take 8 (Str.drop i data)).
Proof.
  rewrite !substring_field by lia. unfold Spec.entry, Spec.field.
  rewrite !drop_take, !take_take, !drop_drop. simpl Str.drop.
  replace (Z.to_nat (Z.of_nat i + 2) - Z.to_nat (Z.of_nat i))%nat with 2%nat by lia.
  replace (Z.to_nat (Z.of_nat i + 8) - Z.to_nat (Z.of_nat i + 2))%nat with 6%nat by lia.
  replace (Z.to_nat (Z.of_nat i)) with i by lia.
  replace (Z.to_nat (Z.of_nat i + 2)) with (i + 2)%nat by lia.
  rewrite Nat.add_0_r. reflexivity.
Qed.


(** The monitor's loop, started at offset [i], prints one line for each
    whole window of what is left of the data, and none for the rest. *)
Lemma monitor_loop_windows (formatValue : string -> string) (data : string) :
  forall (fuel i : nat),
    Monitor.visualizationLoop formatValue fuel data (Z.of_nat i) =
    map (Spec.entryLine formatValue) (Spec.windows fuel 8 (Str.drop i data)).
Proof.
  induction fuel as [|fuel IH]; intros i; [reflexivity|].
  cbn [Monitor.visualizationLoop Spec.windows].
  rewrite length_drop. unfold Str.len.
  destruct (Z.ltb_spec (Z.of_nat i) (Z.of_nat (String.length data))) as [Hi|Hi].
  - destruct (Z.leb_spec (Z.of_nat i + 8) (Z.of_nat (String.length data)))
      as [Hw|Hw].
    + destruct (Nat.leb_spec 8 (String.length data - i)) as [_|]; [|lia].
      cbn [map app]. f_equal.
      * unfold Spec.entryLine. rewrite <- window_entry. reflexivity.
      * replace (Z.of_nat i + 8)%Z with (Z.of_nat (i + 8)) by lia.
        rewrite IH, drop_drop. reflexivity.
    + destruct (Nat.leb_spec 8 (String.length data - i)) as [|_]; [lia|].
      cbn [map app]. destruct fuel as [|fuel']; [reflexivity|].
      cbn [Monitor.visualizationLoop]. unfold Str.len.
      destruct (Z.ltb_spec (Z.of_nat i + 8) (Z.of_nat (String.length data)));
        [lia | reflexivity].
  - destruct (Nat.leb_spec 8 (String.length data - i)) as [|_]; [lia|].
    reflexivity.
Qed.

(** The test client's loop does the same when the data left is a whole
    number of windows. *)
Lemma testclient_loop_windows (data : string) :
  forall (fuel i k : nat),
    String.length data = (i + 8 * k)%nat ->
    TestClient.visualizationLoop fuel data (Z.of_nat i) =
    map (Spec.entryLine (fun v => v)) (Spec.windows fuel 8 (Str.drop i data)).
Proof.
  induction fuel as [|fuel IH]; intros i k Hk; [reflexivity|].
  cbn [TestClient.visualizationLoop Spec.windows].
  rewrite length_drop. unfold Str.len.
  destruct (Z.ltb_spec (Z.of_nat i) (Z.of_nat (String.length data))) as [Hi|Hi].
  - destruct k as [|k]; [lia|].
    destruct (Nat.leb_spec 8 (String.length data - i)) as [_|]; [|lia].
    cbn [map]. f_equal.
    + unfold Spec.entryLine. rewrite <- window_entry. reflexivity.
    + replace (Z.of_nat i + 8)%Z with (Z.of_nat (i + 8)) by lia.
      rewrite (IH (i + 8)%nat k) by lia. rewrite drop_drop. reflexivity.
  - destruct (Nat.leb_spec 8 (String.length data - i)) as [|_]; [lia|].
    reflexivity.
Qed.

(** [Spec.windows] with enough fuel cuts the body into windows of [n]
    characters and leaves fewer than [n]. *)
Lemma windows_cover (n : nat) :
  (0 < n)%nat ->
  forall (fuel : nat) (body : string),
    (String.length body <= fuel)%nat ->
    exists rest,
      body = Str.concat (Spec.windows fuel n body) ++ rest /\
      (String.length rest < n)%nat /\
      Forall (fun w => String.length w = n) (Spec.windows fuel n body).
Proof.
  intros Hn. induction fuel as [|fuel IH]; intros body Hf; simpl.
  - exists body. repeat split; [lia | constructor].
  - destruct (Nat.leb_spec n (String.length body)) as [Hb|Hb].
    + destruct (IH (Str.drop n body)) as [rest [E [L F]]].
      { rewrite length_drop. lia. }
      exists rest. repeat split; [|exact L|].
      * simpl. rewrite app_assoc, <- E.
        rewrite <- (take_app_exact (Str.take n body) (Str.drop n body)) at 1.
        clear. revert body. induction n as [|n IHn]; intros [|c s]; simpl;
          try reflexivity. f_equal. apply IHn.
      * constructor; [|exact F]. rewrite length_take. lia.
    + exists body. repeat split; [lia | constructor].
Qed.

(** X23.  The monitor's visualization parser, on a response made of an
    opening character, a body and a closing character: one line for each
    whole 8-character window of the body, the partial window dropped. *)
Lemma monitor_visualization_windows (timestamp : string)
    (formatValue : string -> string) (c c' : ascii) (body : string) :
  String.eqb (String c (body ++ String c' "")) "(0)" = false ->
  Monitor.parseAndDisplayVisualization timestamp formatValue
    (String c (body ++ String c' "")) =
  ("[" ++ timestamp ++ "] Dispensing:")
    :: (map (Spec.entryLine formatValue)
          (Spec.windows (String.length body) 8 body) ++ [""])%list.
Proof.
  intros Hs. unfold Monitor.parseAndDisplayVisualization. rewrite Hs.
  rewrite (substring_strip c body (String c' "") 1 eq_refl).
  assert (L := monitor_loop_windows formatValue body (String.length body) 0).
  cbn [Z.of_nat Str.drop] in L. rewrite L. reflexivity.
Qed.

(* ===================================================================== *)
(** ** Operations: what is written to the socket                         *)
(* ===================================================================== *)

(** Whatever the state of the session, [sendCommand] writes its argument
    as it is, once, when the session is connected, and nothing
    otherwise. *)
Lemma js_sendCommand_wire (command : string) (chunks : list string)
    (st : JS.Client) :
  JS.wire (snd (JS.sendCommand command chunks st)) =
  (JS.wire st ++
   if JS.connected st then [(JS.client st, command)] else [])%list.
Proof.
  unfold JS.sendCommand. destruct (JS.connected st); simpl.
  - destruct chunks; reflexivity.
  - now rewrite app_nil_r.
Qed.

Lemma go_SendCommand_wire (command : string) (net : Go.Net) (c : Go.Client) :
  Go.wire (Go.finalClient (Go.SendCommand command net c)) =
  (Go.wire c ++ Go.written command c)%list.
Proof.
  destruct c as [[k|] [|] [|] dl cl w]; unfold Go.written; simpl;
    try (now rewrite app_nil_r).
  destruct net as [[e|] cs re];
    unfold Go.SendCommand, Go.locked, Go.bind, Go.Lock, Go.get, Go.Write,
      Go.hasConn, Go.Unlock, Go.ret; simpl; [reflexivity|].
  destruct (Go.ReadString ")" cs re "") as [resp [e|]]; simpl;
    [destruct (String.eqb resp "")|]; reflexivity.
Qed.

(** C8.  The increment, visualization, status and calendar operations
    hand to the socket exactly the literal frames ["(&I)"], ["(&V)"],
    ["(&S)"] and ["(&R)"], once, on a connected session (and nothing on
    one that is not), in the JavaScript client and in the Go client: the
    header between the two delimiters with no checksum field, unlike the
    frame [buildCommand] makes of the same header. *)
Theorem literal_frames (chunks : list string) (st : JS.Client)
    (net : Go.Net) (c : Go.Client) :
  (JS.wire (snd (JS.increment chunks st)) =
     JS.wire st ++ (if JS.connected st then [(JS.client st, "(&I)")] else []) /\
   JS.wire (snd (JS.getVisualization chunks st)) =
     JS.wire st ++ (if JS.connected st then [(JS.client st, "(&V)")] else []) /\
   JS.wire (snd (JS.getStatus chunks st)) =
     JS.wire st ++ (if JS.connected st then [(JS.client st, "(&S)")] else []) /\
   JS.wire (snd (JS.readCalendar chunks st)) =
     JS.wire st ++ (if JS.connected st then [(JS.client st, "(&R)")] else []))%list /\
  (Go.wire (Go.finalClient (Go.Increment net c)) =
     Go.wire c ++ Go.written "(&I)" c /\
   Go.wire (Go.finalClient (Go.GetVisualization net c)) =
     Go.wire c ++ Go.written "(&V)" c /\
   Go.wire (Go.finalClient (Go.GetStatus net c)) =
     Go.wire c ++ Go.written "(&S)" c /\
   Go.wire (Go.finalClient (Go.ReadCalendar net c)) =
     Go.wire c ++ Go.written "(&R)" c)%list /\
  (JS.buildCommand "&I" "" = "(&I6F)" /\
   JS.buildCommand "&V" "" = "(&V7C)" /\
   JS.buildCommand "&S" "" = "(&S79)" /\
   JS.buildCommand "&R" "" = "(&R78)").
Proof.
  split; [|split].
  - repeat split; apply js_sendCommand_wire.
  - repeat split; apply go_SendCommand_wire.
  - repeat split.
Qed.

Example status_frame_on_connected_session :
  JS.wire (snd (JS.getStatus ["(SLLB)"]
                  (JS.mkClient (Some 0%nat) true 1 [] 0 []))) =
    [(Some 0%nat, "(&S)")] /\
  Go.wire (Go.finalClient
             (Go.GetStatus (Go.mkNet None ["(SLLB)"] "i/o timeout")
                (Go.mkClient (Some 0%nat) true false 1 [] []))) =
    [(0%nat, "(&S)")].
Proof. split; reflexivity. Qed.

(* ===================================================================== *)
(** ** Operations: caller parameters                                     *)
(* ===================================================================== *)

(** C9, as the claim states it, fails: a one-character nozzle with a
    five-character, non-numeric price is not rejected.  The frame is built
    around them, written to the socket, and the call resolves with the
    device's reply; the same holds for an over-wide preset value. *)
Lemma changePrice_malformed_is_sent :
  let st := JS.mkClient (Some 0%nat) true 1 [] 0 [] in
  JS.changePrice "8" "0" "12x45" ["(U)"] st =
    (JS.Resolved "(U)",
     JS.mkClient (Some 0%nat) true 1 [] 0 [(Some 0%nat, "(&U80012x4557)")]) /\
  JS.setPreset "8" "1234567" ["(P)"] st =
    (JS.Resolved "(P)",
     JS.mkClient (Some 0%nat) true 1 [] 0 [(Some 0%nat, "(&P812345671A)")]).
Proof.
  split; reflexivity.
Qed.

Lemma js_sendCommand_rejection (command msg : string) (chunks : list string)
    (st : JS.Client) :
  fst (JS.sendCommand command chunks st) = JS.Rejected msg ->
  msg = "Not connected to device" \/ msg = "Response timeout".
Proof.
  unfold JS.sendCommand. destruct (JS.connected st); simpl.
  - destruct chunks; simpl; intros E; [right; congruence | discriminate].
  - intros E. left. congruence.
Qed.

(** C9, amended.  [changePrice] and [setPreset] do not validate their
    parameters.  Whatever strings the caller gives, on a connected session
    the frame is built around them and written to the socket: the nozzle
    and level as they are, the price (or preset value) whole after as many
    ["0"] as it is short of 4 (or 6) characters, none when it is that long
    or longer, so nothing is truncated or wrapped.  The only failures of
    the call are those of [sendCommand]: the session is not connected, or
    the response timed out. *)
Theorem parameters_not_validated (nozzle level price value : string)
    (chunks : list string) (st : JS.Client) :
  JS.wire (snd (JS.changePrice nozzle level price chunks st)) =
    (JS.wire st ++
     if JS.connected st then
       [(JS.client st,
         JS.buildCommand "&U"
           (nozzle ++ level ++ "0" ++
            Str.replicate (4 - String.length price) "0" ++ price)%string)]
     else [])%list /\
  JS.wire (snd (JS.setPreset nozzle value chunks st)) =
    (JS.wire st ++
     if JS.connected st then
       [(JS.client st,
         JS.buildCommand "&P"
           (nozzle ++
            Str.replicate (6 - String.length value) "0" ++ value)%string)]
     else [])%list /\
  (forall msg,
      fst (JS.changePrice nozzle level price chunks st) = JS.Rejected msg \/
      fst (JS.setPreset nozzle value chunks st) = JS.Rejected msg ->
      msg = "Not connected to device" \/ msg = "Response timeout").
Proof.
  split; [|split].
  - unfold JS.changePrice. now rewrite js_sendCommand_wire.
  - unfold JS.setPreset. now rewrite js_sendCommand_wire.
  - intros msg [E|E]; eapply js_sendCommand_rejection; eauto.
Qed.

(** The Go port does not validate either: same frame layout, the padding
    applied only when the value is short. *)
Lemma go_ChangePrice_wire (nozzle level price : string) (net : Go.Net)
    (c : Go.Client) :
  Go.wire (Go.finalClient (Go.ChangePrice nozzle level price net c)) =
  (Go.wire c ++
   Go.written
     (Go.BuildCommand "&U"
        (nozzle ++ level ++ "0" ++
         Str.replicate (if (Str.len price <? 4)%Z
                        then 4 - List.length (Go.runes price) else 0) "0"
         ++ price)%string) c)%list.
Proof.
  unfold Go.ChangePrice. rewrite go_SendCommand_wire.
  unfold Go.ChangePriceFrame, Go.fmt0s.
  destruct (Str.len price <? 4)%Z; reflexivity.
Qed.

(* ===================================================================== *)
(** ** The two clients build the same frames                             *)
(* ===================================================================== *)

Lemma is_ascii_app (a b : string) :
  Str.is_ascii (a ++ b) = Str.is_ascii a && Str.is_ascii b.
Proof.
  induction a as [|c a IH]; simpl; [reflexivity|].
  now rewrite IH, andb_assoc.
Qed.

Lemma is_ascii_replicate_zero (n : nat) :
  Str.is_ascii (Str.replicate n "0") = true.
Proof.
  induction n; simpl; auto.
Qed.

(** On ASCII text a rune is a byte. *)
Lemma runes_ascii (s : string) :
  Str.is_ascii s = true -> Go.runes s = Str.charCodes s.
Proof.
  induction s as [|c s IH]; intros H; [reflexivity|].
  simpl in H. apply andb_true_iff in H. destruct H as [Hc Hs].
  cbn [Go.runes Str.charCodes]. unfold Go.seqLen. rewrite Hc.
  now rewrite IH.
Qed.

Lemma length_charCodes (s : string) :
  List.length (Str.charCodes s) = String.length s.
Proof.
  induction s; simpl; auto.
Qed.

(** [%02X] and [toString(16).toUpperCase().padStart(2, "0")] agree on a
    byte. *)
Lemma fmt02X_js (m : N) :
  (m < 256)%N ->
  Go.fmt02X m = Str.padStart (Str.toUpperCase (Str.toString16 m)) 2 "0".
Proof.
  intros Hm. apply String.eqb_eq. revert m Hm.
  apply (forall_bytes
           (fun m => String.eqb (Go.fmt02X m)
                       (Str.padStart (Str.toUpperCase (Str.toString16 m)) 2 "0"))).
  vm_compute. reflexivity.
Qed.

Lemma calculateChecksum_agree (s : string) :
  Str.is_ascii s = true -> Go.calculateChecksum s = JS.calculateChecksum s.
Proof.
  intros H. unfold Go.calculateChecksum, JS.calculateChecksum.
  rewrite (runes_ascii s H), go_sumLoop_spec, js_sumLoop_spec, !land_255.
  apply fmt02X_js. apply N.mod_lt. discriminate.
Qed.

Lemma BuildCommand_agree (header parameters : string) :
  Str.is_ascii header = true -> Str.is_ascii parameters = true ->
  Go.BuildCommand header parameters = JS.buildCommand header parameters.
Proof.
  intros Hh Hp. unfold Go.BuildCommand, JS.buildCommand.
  rewrite calculateChecksum_agree; [reflexivity|].
  cbn [String.append Str.is_ascii]. rewrite is_ascii_app, Hh, Hp. reflexivity.
Qed.

(** The price field of the Go client is the one [padStart] makes. *)
Lemma price_field_agree (width : nat) (s : string) :
  Str.is_ascii s = true ->
  (if (Str.len s <? Z.of_nat width)%Z then Go.fmt0s width s else s) =
  Str.padStart s width "0".
Proof.
  intros H. unfold Go.fmt0s, Str.padStart, Str.len.
  rewrite (runes_ascii s H), length_charCodes.
  destruct (Z.ltb_spec (Z.of_nat (String.length s)) (Z.of_nat width)) as [L|L];
    [reflexivity|].
  replace (width - String.length s)%nat with 0%nat by lia. reflexivity.
Qed.

(** C10, as the claim states it, fails outside ASCII.  The price of two
    characters U+00E9 is two code units for JavaScript and the four bytes
    C3 A9 C3 A9 for Go (the same text: its runes are those code units).
    [padStart] counts 2 and puts two zeros before it; [len] counts 4 and
    [ChangePrice] does not pad.  The frames differ in the price field and
    in the checksum; they also differ when Go is given the very bytes of
    the JavaScript string. *)
Lemma changePrice_frames_differ_outside_ascii :
  let js_price := String "233" (String "233" "") in
  let go_price := String "195" (String "169" (String "195" (String "169" ""))) in
  Go.runes go_price = Str.charCodes js_price /\
  JS.changePriceFrame "08" "0" js_price = "(&U0800" ++ "00" ++ js_price ++ "75)" /\
  Go.ChangePriceFrame "08" "0" go_price = "(&U0800" ++ go_price ++ "15)" /\
  JS.changePriceFrame "08" "0" js_price <>
    Go.ChangePriceFrame "08" "0" go_price /\
  JS.changePriceFrame "08" "0" js_price <>
    Go.ChangePriceFrame "08" "0" js_price.
Proof.
  repeat split; discriminate.
Qed.

(** C10, amended.  For every nozzle, level and price that are ASCII text, the
    JavaScript [changePrice] and the Go [ChangePrice] build the same frame,
    character for character; its price field is the price after as many
    ["0"] as it is short of 4 characters, in both. *)
Theorem changePrice_frames_agree (nozzle level price : string) :
  Str.is_ascii nozzle = true ->
  Str.is_ascii level = true ->
  Str.is_ascii price = true ->
  JS.changePriceFrame nozzle level price =
    Go.ChangePriceFrame nozzle level price /\
  Go.ChangePriceFrame nozzle level price =
    JS.buildCommand "&U"
      (nozzle ++ level ++ "0" ++
       Str.replicate (4 - String.length price) "0" ++ price).
Proof.
  intros Hn Hl Hp.
  assert (E : Go.ChangePriceFrame nozzle level price =
              JS.changePriceFrame nozzle level price).
  { unfold Go.ChangePriceFrame, JS.changePriceFrame.
    change 4%Z with (Z.of_nat 4). rewrite (price_field_agree 4 price Hp).
    apply BuildCommand_agree; [reflexivity|].
    rewrite !is_ascii_app, Hn, Hl. unfold Str.padStart.
    rewrite is_ascii_app, is_ascii_replicate_zero, Hp. reflexivity. }
  split; [now symmetry | rewrite E; reflexivity].
Qed.

Lemma changePrice_frames_agree_witness :
  Str.is_ascii "08" = true /\ Str.is_ascii "0" = true /\
  Str.is_ascii "12" = true /\
  JS.changePriceFrame "08" "0" "12" = Go.ChangePriceFrame "08" "0" "12".
Proof.
  do 3 (split; [reflexivity|]).
  exact (proj1 (changePrice_frames_agree "08" "0" "12"
                  eq_refl eq_refl eq_refl)).
Defined.

(* ===================================================================== *)
(** ** Frame codec: shape, round trip, what the checksum tells apart     *)
(* ===================================================================== *)

Lemma js_calculateChecksum_value (s : string) :
  Spec.isChecksumOf (Spec.sumCodes (tl (Str.charCodes s)) mod 256)%N
                    (JS.calculateChecksum s).
Proof.
  unfold JS.calculateChecksum.
  rewrite js_sumLoop_spec, N.add_0_l, land_255.
  apply jsRender_byte. apply N.mod_lt. discriminate.
Qed.

Lemma charCodes_app (a b : string) :
  Str.charCodes (a ++ b) = (Str.charCodes a ++ Str.charCodes b)%list.
Proof.
  induction a as [|c a IH]; simpl; congruence.
Qed.

Lemma sumCodes_app (l m : list N) :
  Spec.sumCodes (l ++ m)%list = (Spec.sumCodes l + Spec.sumCodes m)%N.
Proof.
  induction l as [|x l IH]; simpl; [reflexivity|]. rewrite IH. lia.
Qed.

(** The middle of three pieces, by its offsets. *)
Lemma substring_middle (a b c : string) :
  Str.substring (a ++ b ++ c) (Str.len a) (Str.len a + Str.len b) = b.
Proof.
  rewrite substring_in_range.
  - unfold Str.len.
    replace (Z.to_nat (Z.of_nat (String.length a) + Z.of_nat (String.length b)
                       - Z.of_nat (String.length a)))
      with (String.length b) by lia.
    rewrite Nat2Z.id, drop_app_exact. apply take_app_exact.
  - unfold Str.len. lia.
  - unfold Str.len. rewrite !length_app. lia.
Qed.

(** X1.  A frame made by [buildCommand] is the opening delimiter, the
    header, the parameters, two upper-case hexadecimal digits and the
    closing delimiter; the two digits read back as the sum of the codes of
    header and parameters modulo 256; the frame is four characters longer
    than header and parameters together. *)
Theorem buildCommand_frame (header parameters : string) :
  exists cs : string,
    JS.buildCommand header parameters =
      "(" ++ header ++ parameters ++ cs ++ ")" /\
    Spec.isChecksumOf
      (Spec.sumCodes (Str.charCodes (header ++ parameters)) mod 256)%N cs /\
    String.length (JS.buildCommand header parameters) =
      (String.length header + String.length parameters + 4)%nat.
Proof.
  exists (JS.calculateChecksum ("(" ++ header ++ parameters)).
  assert (V := js_calculateChecksum_value ("(" ++ header ++ parameters)).
  simpl in V. repeat split.
  - unfold JS.buildCommand. simpl. now rewrite app_assoc.
  - apply V.
  - apply V.
  - unfold JS.buildCommand. simpl. rewrite !length_app.
    destruct V as [L _]. rewrite L. simpl. lia.
Qed.

(** X2.  Round trip.  Stripping one leading and three trailing characters
    from a frame made by [buildCommand] gives back header and parameters;
    and the checksum computed anew over the frame without its last three
    characters is the checksum field the frame carries. *)
Theorem buildCommand_roundtrip (header parameters : string) :
  let frame := JS.buildCommand header parameters in
  Str.substring frame 1 (Str.len frame - 3) = header ++ parameters /\
  JS.calculateChecksum (Str.substring frame 0 (Str.len frame - 3)) =
    Str.substring frame (Str.len frame - 3) (Str.len frame - 1).
Proof.
  intros frame.
  set (body := "(" ++ header ++ parameters).
  set (cs := JS.calculateChecksum body).
  assert (Lc : String.length cs = 2%nat)
    by apply (js_calculateChecksum_value body).
  assert (F : frame = body ++ cs ++ ")") by reflexivity.
  assert (Lf : Str.len frame = (Str.len body + 3)%Z).
  { rewrite F. unfold Str.len. rewrite !length_app, Lc. simpl. lia. }
  split.
  - rewrite F.
    change (body ++ cs ++ ")")
      with (String "(" ((header ++ parameters) ++ cs ++ ")")).
    apply substring_strip. rewrite length_app, Lc. reflexivity.
  - replace (Str.len frame - 3)%Z with (Str.len body) by lia.
    replace (Str.len frame - 1)%Z with (Str.len body + Str.len cs)%Z
      by (unfold Str.len in *; lia).
    rewrite F, substring_middle.
    assert (E : Str.substring (body ++ cs ++ ")") 0 (Str.len body) = body).
    { apply (substring_middle "" body (cs ++ ")")). }
    rewrite E. reflexivity.
Qed.

(** X3.  Which frames the checksum tells apart: two bodies get the same
    checksum exactly when the sums of their codes, first character left
    out, agree modulo 256.  So the first character never matters, and
    neither does the order of the others: swapping two parts of a body
    leaves the checksum as it was. *)
Theorem checksum_collisions (c c' : ascii) (a b : string) :
  (JS.calculateChecksum (String c a) = JS.calculateChecksum (String c' b) <->
   (Spec.sumCodes (Str.charCodes a) mod 256 =
    Spec.sumCodes (Str.charCodes b) mod 256)%N) /\
  JS.calculateChecksum (String c (a ++ b)) =
    JS.calculateChecksum (String c' (b ++ a)).
Proof.
  assert (R : forall s t,
             (Spec.sumCodes (Str.charCodes s) mod 256 =
              Spec.sumCodes (Str.charCodes t) mod 256)%N ->
             JS.calculateChecksum (String c s) =
             JS.calculateChecksum (String c' t)).
  { intros s t H. unfold JS.calculateChecksum. simpl.
    now rewrite !js_sumLoop_spec, !N.add_0_l, !land_255, H. }
  split; [split|].
  - intros E.
    destruct (js_calculateChecksum_value (String c a)) as [_ Pa].
    destruct (js_calculateChecksum_value (String c' b)) as [_ Pb].
    simpl in Pa, Pb. rewrite E in Pa. congruence.
  - apply R.
  - apply R. rewrite !charCodes_app, !sumCodes_app. f_equal. lia.
Qed.

(* ===================================================================== *)
(** ** Frames of the two clients, operation by operation                 *)
(* ===================================================================== *)

Lemma is_ascii_decimal (d : Decimal.uint) :
  Str.is_ascii (NilEmpty.string_of_uint d) = true.
Proof.
  induction d; simpl; auto.
Qed.

(** X4.  On ASCII text the Go client frames what the JavaScript client
    frames: [BuildCommand] and [buildCommand] give the same frame for
    every header and parameters, and so do the preset and operating-mode
    operations, the preset value zero-padded to six characters in both. *)
Theorem clients_build_same_frames (header parameters nozzle value mode : string) :
  Str.is_ascii header = true -> Str.is_ascii parameters = true ->
  Str.is_ascii nozzle = true -> Str.is_ascii value = true ->
  Str.is_ascii mode = true ->
  Go.BuildCommand header parameters = JS.buildCommand header parameters /\
  Go.SetPresetFrame nozzle value = JS.setPresetFrame nozzle value /\
  Go.SetOperatingModeFrame nozzle mode = JS.setOperatingModeFrame nozzle mode.
Proof.
  intros Hh Hp Hn Hv Hm. split; [|split].
  - now apply BuildCommand_agree.
  - unfold Go.SetPresetFrame, JS.setPresetFrame.
    change 6%Z with (Z.of_nat 6). rewrite (price_field_agree 6 value Hv).
    apply BuildCommand_agree; [reflexivity|].
    unfold Str.padStart.
    now rewrite !is_ascii_app, Hn, is_ascii_replicate_zero, Hv.
  - unfold Go.SetOperatingModeFrame, JS.setOperatingModeFrame.
    apply BuildCommand_agree; [reflexivity|].
    now rewrite is_ascii_app, Hn, Hm.
Qed.

Lemma clients_build_same_frames_witness :
  Str.is_ascii "&T" = true /\ Str.is_ascii "08L" = true /\
  Str.is_ascii "08" = true /\ Str.is_ascii "1000" = true /\
  Str.is_ascii "L" = true /\
  Go.SetPresetFrame "08" "1000" = JS.setPresetFrame "08" "1000".
Proof.
  do 5 (split; [reflexivity|]).
  exact (proj1 (proj2 (clients_build_same_frames "&T" "08L" "08" "1000" "L"
                         eq_refl eq_refl eq_refl eq_refl eq_refl))).
Defined.

(** X5.  Identifier lookup by memory position, for a position that is
    a safe integer (magnitude at most 2^53 - 1): when it is not negative
    the two clients send the same frame, the position in decimal
    zero-padded to six digits.  When it is negative and its text is
    shorter than six characters they do not: [padStart] puts the zeros
    before the sign, [%06d] after it. *)
Theorem readIdentifierFromMemory_frames (position : Z) :
  JS.isSafeInteger position = true ->
  ((0 <= position)%Z ->
   JS.readIdentifierFromMemoryFrame position =
   Some (Go.ReadIdentifierFromMemoryFrame position)) /\
  ((position < 0)%Z ->
   forall text : string,
     JS.numberToString position = Some text ->
     (String.length text < 6)%nat ->
     JS.readIdentifierFromMemoryFrame position <>
     Some (Go.ReadIdentifierFromMemoryFrame position)).
Proof.
  intros Hs. unfold JS.readIdentifierFromMemoryFrame, JS.numberToString.
  rewrite Hs. split.
  - intros H. f_equal. symmetry.
    destruct position as [|p|p]; [reflexivity| |lia].
    unfold Go.ReadIdentifierFromMemoryFrame.
    apply BuildCommand_agree; [reflexivity|].
    unfold Str.padStart, Str.decimalN.
    now rewrite is_ascii_app, is_ascii_replicate_zero, is_ascii_decimal.
  - intros H text E L. injection E as <-.
    destruct position as [|p|p]; try lia.
    cbv beta iota in L |- *. cbn [String.length String.append] in L.
    unfold Go.ReadIdentifierFromMemoryFrame, Go.BuildCommand,
      JS.buildCommand, Go.fmt06d, Str.padStart.
    change (String.length ("-" ++ Str.decimalN (N.pos p)))
      with (S (String.length (Str.decimalN (N.pos p)))) in *.
    destruct (6 - S (String.length (Str.decimalN (N.pos p))))%nat as [|k] eqn:E;
      [lia|].
    simpl. intros Q. discriminate Q.
Qed.

Lemma readIdentifierFromMemory_frames_witness :
  (JS.isSafeInteger 1 = true /\ (0 <= 1)%Z /\
   JS.readIdentifierFromMemoryFrame 1 =
   Some (Go.ReadIdentifierFromMemoryFrame 1)) /\
  (JS.isSafeInteger (-5) = true /\ (-5 < 0)%Z /\
   JS.numberToString (-5) = Some "-5" /\ (String.length "-5" < 6)%nat /\
   JS.readIdentifierFromMemoryFrame (-5) <>
   Some (Go.ReadIdentifierFromMemoryFrame (-5))).
Proof.
  split.
  - split; [reflexivity|]. split; [lia|].
    apply (proj1 (readIdentifierFromMemory_frames 1 eq_refl)). lia.
  - split; [reflexivity|]. split; [lia|]. split; [reflexivity|].
    split; [simpl; lia|].
    apply (proj2 (readIdentifierFromMemory_frames (-5) eq_refl)
             ltac:(lia) "-5" eq_refl).
    simpl. lia.
Defined.

(* ===================================================================== *)
(** ** The JavaScript session over any sequence of calls                 *)
(* ===================================================================== *)

Lemma js_invariant_new : Invariant.js JS.newClient.
Proof.
  repeat split; simpl; intros; try discriminate; try contradiction.
Qed.

Lemma js_invariant_step (st : JS.Client) (call : JS.Call) :
  Invariant.js st -> Invariant.js (JS.step st call).
Proof.
  intros I. pose proof I as (Hc & Hk & Hd & Hw).
  destruct call as [ev| |command chunks].
  - (* connect *)
    assert (Hw' : forall s command, In (s, command) (JS.wire st) ->
                    exists k, s = Some k /\ k < S (JS.created st)).
    { intros s command Hin. destruct (Hw s command Hin) as (k & -> & L).
      exists k. split; [reflexivity | lia]. }
    destruct ev; simpl; (split; [|split; [|split]]); simpl.
    + intros _ Q. discriminate Q.
    + intros k Q. injection Q as <-. reflexivity.
    + intros k Q. apply Nat.lt_lt_succ_r. now apply Hd.
    + exact Hw'.
    + intros Q. discriminate Q.
    + intros k Q. injection Q as <-. reflexivity.
    + intros k Q. apply Nat.lt_lt_succ_r. now apply Hd.
    + exact Hw'.
  - (* disconnect *)
    unfold JS.step, JS.disconnect.
    destruct (JS.client st) as [sock|] eqn:E;
      [|unfold Invariant.js; rewrite E; repeat split; auto].
    split; [|split; [|split]]; simpl.
    + intros Q. discriminate Q.
    + exact Hk.
    + intros k [<-|Q]; [|now apply Hd]. specialize (Hk sock eq_refl). lia.
    + exact Hw.
  - (* sendCommand *)
    unfold JS.step, JS.sendCommand.
    destruct (JS.connected st) eqn:E; simpl; [|exact I].
    assert (Hw' : forall s cmd,
               In (s, cmd) (JS.wire st ++ [(JS.client st, command)])%list ->
               exists k, s = Some k /\ k < JS.created st).
    { intros s cmd Hin. apply in_app_iff in Hin. destruct Hin as [Hin|Hin].
      - eauto.
      - destruct Hin as [Hin|[]]. injection Hin as <- <-.
        destruct (JS.client st) as [k|] eqn:Ek;
          [|exfalso; now apply Hc].
        exists k. split; [reflexivity|]. specialize (Hk k eq_refl). lia. }
    destruct chunks; simpl; (split; [|split; [|split]]); simpl;
      assumption.
Qed.

Lemma js_invariant_run (calls : list JS.Call) :
  forall st, Invariant.js st -> Invariant.js (JS.run calls st).
Proof.
  induction calls as [|call calls IH]; intros st H; simpl; [exact H|].
  apply IH. now apply js_invariant_step.
Qed.

(** X6.  Whatever sequence of [connect], [disconnect] and [sendCommand]
    calls a new client goes through, and whatever the network does:
    [connected] is never true without a socket; [this.client] is always
    the socket created last; and every frame was written to a socket the
    client had created, every destroyed socket was one of them. *)
Theorem js_session_invariant (calls : list JS.Call) :
  Invariant.js (JS.run calls JS.newClient).
Proof.
  apply js_invariant_run. apply js_invariant_new.
Qed.

(** X7.  After [disconnect()], at any point of any use of a client, every
    operation is rejected with ["Not connected to device"], writes
    nothing and changes nothing, until the next [connect()]. *)
Theorem js_disconnected_rejects (calls : list JS.Call) (command : string)
    (chunks : list string) :
  let st := JS.run (calls ++ [JS.CallDisconnect]) JS.newClient in
  JS.connected st = false /\
  JS.sendCommand command chunks st =
    (JS.Rejected "Not connected to device", st).
Proof.
  intros st.
  assert (C : JS.connected st = false).
  { unfold st, JS.run. rewrite fold_left_app. simpl.
    fold (JS.run calls JS.newClient).
    destruct (js_invariant_run calls _ js_invariant_new) as (Hc & _).
    unfold JS.disconnect.
    destruct (JS.client (JS.run calls JS.newClient)) eqn:E; [reflexivity|].
    destruct (JS.connected (JS.run calls JS.newClient)); [|reflexivity].
    exfalso. now apply Hc. }
  split; [exact C|]. unfold JS.sendCommand. now rewrite C.
Qed.

(* ===================================================================== *)
(** ** The Go session: what SendCommand returns, and when it never does  *)
(* ===================================================================== *)

(** [ReadString] sees the stream, not the chunks: it returns the stream up
    to and including the first delimiter, or, when there is none before
    the stream fails, all of it together with the error. *)
Lemma ReadString_stream (d : ascii) (cs : list string) (e : string) :
  forall acc : string,
    Go.ReadString d cs e acc =
    match Str.splitAfter d (Str.concat cs) with
    | Some (p, _) => (acc ++ p, None)
    | None => (acc ++ Str.concat cs, Some e)
    end.
Proof.
  induction cs as [|c cs IH]; intros acc; simpl.
  - now rewrite app_empty_r.
  - rewrite splitAfter_app.
    destruct (Str.splitAfter d c) as [[p r]|]; [reflexivity|].
    rewrite IH.
    destruct (Str.splitAfter d (Str.concat cs)) as [[p r]|];
      now rewrite app_assoc.
Qed.

Lemma splitAfter_nonempty (d : ascii) (s p r : string) :
  Str.splitAfter d s = Some (p, r) -> p <> "".
Proof.
  destruct s as [|c s]; simpl; [discriminate|].
  destruct (Ascii.eqb c d).
  - intros E. injection E as <- _. discriminate.
  - destruct (Str.splitAfter d s) as [[p' r']|]; [|discriminate].
    intros E. injection E as <- _. discriminate.
Qed.

Ltac go_unfold :=
  unfold Go.SendCommand, Go.Connect, Go.Disconnect, Go.IsConnected,
    Go.locked, Go.bind, Go.Lock, Go.get, Go.Write, Go.hasConn, Go.Unlock,
    Go.ret in *.

(** X8.  The only error [SendCommand] ever returns is
    ["not connected to device"], with an empty response and the session
    left exactly as it was: it is returned when the session is not
    connected.  No write error and no read error is ever returned to the
    caller. *)
Theorem go_SendCommand_only_error (command : string) (net : Go.Net)
    (c c' : Go.Client) (response e : string) :
  Go.SendCommand command net c = Go.Returns (response, Some e) c' ->
  e = "not connected to device" /\ response = "" /\ c' = c /\
  Go.connected c && Go.hasConn c = false.
Proof.
  destruct c as [[k|] [|] [|] dl cl w]; destruct net as [[we|] cs re];
    go_unfold; simpl; try discriminate;
    try (intros Q; injection Q as <- <- <-; repeat split; reflexivity).
  destruct (Go.ReadString ")" cs re "") as [resp [err|]]; simpl;
    [destruct (String.eqb resp ""); simpl|]; discriminate.
Qed.

Lemma go_SendCommand_only_error_witness :
  Go.SendCommand "(&S)" (Go.mkNet None ["(S)"] "i/o timeout") Go.NewClient =
    Go.Returns ("", Some "not connected to device") Go.NewClient /\
  "not connected to device" = "not connected to device" /\
  Go.connected Go.NewClient && Go.hasConn Go.NewClient = false.
Proof.
  split; [reflexivity|].
  destruct (go_SendCommand_only_error "(&S)"
              (Go.mkNet None ["(S)"] "i/o timeout") Go.NewClient Go.NewClient
              "" "not connected to device" eq_refl) as (E & _ & _ & G).
  split; [exact E | exact G].
Defined.

(** X9.  A read that fails before any data has arrived, or a write that
    fails, leaves the client unusable: [SendCommand] blocks holding the
    mutex, the session still marked connected and its connection not
    closed, and from then on [Connect], [Disconnect], [IsConnected] and
    [SendCommand] all block as well. *)
Theorem go_client_wedged (command : string) (net : Go.Net) (k : nat)
    (c : Go.Client) :
  Go.connected c = true -> Go.conn c = Some k -> Go.mu c = false ->
  Go.writeErr net <> None \/ Str.concat (Go.chunks net) = "" ->
  exists c',
    Go.SendCommand command net c = Go.Blocks c' /\
    Go.connected c' = true /\ Go.conn c' = Some k /\
    Go.closed c' = Go.closed c /\
    (forall dial command' net',
        Go.Connect dial c' = Go.Blocks c' /\
        Go.Disconnect c' = Go.Blocks c' /\
        Go.IsConnected c' = Go.Blocks c' /\
        Go.SendCommand command' net' c' = Go.Blocks c').
Proof.
  intros Hc Hk Hm Hn. destruct c as [cn cd m dl cl w]. simpl in *. subst.
  exists (Go.mkClient (Some k) true true dl cl (w ++ [(k, command)])).
  split; [|repeat split].
  destruct net as [[we|] cs re]; go_unfold; simpl; [reflexivity|].
  destruct Hn as [Hn|Hn]; [now contradiction Hn|]. simpl in Hn.
  rewrite ReadString_stream, Hn. reflexivity.
Qed.

Lemma go_client_wedged_witness :
  exists c',
    Go.SendCommand "(&S)" (Go.mkNet None [] "i/o timeout")
      (Go.mkClient (Some 0%nat) true false 1 [] []) = Go.Blocks c' /\
    Go.IsConnected c' = Go.Blocks c'.
Proof.
  destruct (go_client_wedged "(&S)" (Go.mkNet None [] "i/o timeout") 0
              (Go.mkClient (Some 0%nat) true false 1 [] [])
              eq_refl eq_refl eq_refl (or_intror eq_refl))
    as (c' & B & _ & _ & _ & W).
  exists c'. split; [exact B|].
  exact (proj1 (proj2 (proj2 (W None "" (Go.mkNet None [] ""))))).
Defined.

(** X10.  When [SendCommand] returns a response, the response is not
    empty and is the stream of bytes received up to and including the
    first [")"], whatever the chunks; or, when the stream failed before
    any [")"], all that was received, returned as a success.  The session
    is still connected. *)
Theorem go_SendCommand_response (command : string) (net : Go.Net)
    (c c' : Go.Client) (response : string) :
  Go.SendCommand command net c = Go.Returns (response, None) c' ->
  response <> "" /\
  Go.connected c' = true /\
  ((exists rest,
       Str.splitAfter ")" (Str.concat (Go.chunks net)) = Some (response, rest)) \/
   (Str.splitAfter ")" (Str.concat (Go.chunks net)) = None /\
    response = Str.concat (Go.chunks net))).
Proof.
  destruct c as [[k|] [|] [|] dl cl w]; destruct net as [[we|] cs re];
    go_unfold; simpl; try discriminate.
  rewrite ReadString_stream.
  destruct (Str.splitAfter ")" (Str.concat cs)) as [[p r]|] eqn:E; simpl.
  - intros Q. injection Q as <- <-. repeat split.
    + now apply (splitAfter_nonempty _ _ _ _ E).
    + left. now exists r.
  - destruct (String.eqb (Str.concat cs) "") eqn:Z; simpl; [discriminate|].
    intros Q. injection Q as <- <-. repeat split.
    + now apply String.eqb_neq.
    + now right.
Qed.

Lemma go_SendCommand_response_witness :
  Go.SendCommand "(&S)" (Go.mkNet None ["(SL"; "LB)"; "x"] "i/o timeout")
    (Go.mkClient (Some 0%nat) true false 1 [] []) =
  Go.Returns ("(SLLB)", None)
    (Go.mkClient (Some 0%nat) true false 1 [] [(0%nat, "(&S)")]) /\
  "(SLLB)" <> "".
Proof.
  split; [reflexivity|].
  exact (proj1 (go_SendCommand_response "(&S)"
                  (Go.mkNet None ["(SL"; "LB)"; "x"] "i/o timeout")
                  (Go.mkClient (Some 0%nat) true false 1 [] [])
                  (Go.mkClient (Some 0%nat) true false 1 [] [(0%nat, "(&S)")])
                  "(SLLB)" eq_refl)).
Defined.

(* ===================================================================== *)
(** ** The Go session over any sequence of calls                         *)
(* ===================================================================== *)

Lemma go_invariant_new : Invariant.go Go.NewClient.
Proof.
  unfold Invariant.go. simpl. repeat split; try constructor;
    intros; try discriminate; try contradiction.
Qed.

(** The invariant once a frame has been written to the connection. *)
Lemma go_invariant_write (k dl : nat) (cl : list nat)
    (w : list (nat * string)) (m : bool) (command : string) :
  Invariant.go (Go.mkClient (Some k) true false dl cl w) ->
  Invariant.go (Go.mkClient (Some k) true m dl cl (w ++ [(k, command)])).
Proof.
  intros (H1 & H2 & H3 & H4 & H5). simpl in *.
  split; [|split; [|split; [|split]]]; simpl; auto.
  intros k' cmd Hin. apply in_app_iff in Hin. destruct Hin as [Hin|Hin].
  - eauto.
  - destruct Hin as [Hin|[]]. injection Hin as <- <-.
    destruct (H2 k eq_refl) as [E _]. lia.
Qed.

Lemma go_invariant_step (call : Go.Call) (c : Go.Client) :
  Invariant.go c -> Go.mu c = false ->
  match Go.step call c with
  | Go.Returns _ c' => Invariant.go c' /\ Go.mu c' = false
  | Go.Blocks c' => Invariant.go c' /\ Go.mu c' = true
  end.
Proof.
  intros I Hm. destruct c as [cn cd m dl cl w]. simpl in Hm. subst m.
  pose proof I as (H1 & H2 & H3 & H4 & H5).
  unfold Go.hasConn in H1. simpl in H1, H2, H3, H4, H5.
  destruct call as [dial| | |command net]; unfold Go.step.
  - (* Connect *)
    destruct cn as [k|]; simpl in H1; subst cd; go_unfold; simpl.
    + split; [exact I | reflexivity].
    + destruct dial as [e|]; simpl; (split; [|reflexivity]); [exact I|].
      split; [|split; [|split; [|split]]]; simpl; auto.
      * intros k Q. injection Q as <-. split; [reflexivity|].
        intros Hin. apply H3 in Hin. lia.
      * intros k Hin. apply Nat.lt_lt_succ_r. now apply H3.
      * intros k cmd Hin. apply Nat.lt_lt_succ_r. now apply (H5 k cmd).
  - (* Disconnect *)
    destruct cn as [k|]; simpl in H1; subst cd; go_unfold; simpl;
      (split; [|reflexivity]); [|exact I].
    destruct (H2 k eq_refl) as [E N].
    split; [|split; [|split; [|split]]]; simpl; auto.
    + intros k' Q. discriminate Q.
    + intros k' [<-|Hin]; [lia | now apply H3].
    + now constructor.
  - (* IsConnected *)
    go_unfold. simpl. split; [exact I | reflexivity].
  - (* SendCommand *)
    destruct cn as [k|]; simpl in H1; subst cd;
      [|go_unfold; simpl; split; [exact I | reflexivity]].
    assert (W := fun m => go_invariant_write k dl cl w m command I).
    destruct net as [[we|] cs re]; go_unfold; simpl;
      [split; [apply W | reflexivity]|].
    destruct (Go.ReadString ")" cs re "") as [resp [err|]]; simpl;
      [destruct (String.eqb resp ""); simpl|];
      (split; [apply W | reflexivity]).
Qed.

(** X11.  Whatever sequence of [Connect], [Disconnect], [IsConnected] and
    [SendCommand] calls a new client goes through, and whatever the
    network does: [connected] says exactly whether there is a connection;
    the connection is the one dialled last and has not been closed; no
    connection is closed twice; frames are written to dialled connections
    only.  The mutex is free whenever the last call has returned, and
    held for good when it has not. *)
Theorem go_session_invariant (calls : list Go.Call) :
  match Go.run calls Go.NewClient with
  | Go.Returns _ c => Invariant.go c /\ Go.mu c = false
  | Go.Blocks c => Invariant.go c /\ Go.mu c = true
  end.
Proof.
  assert (G : forall c, Invariant.go c -> Go.mu c = false ->
                match Go.run calls c with
                | Go.Returns _ c' => Invariant.go c' /\ Go.mu c' = false
                | Go.Blocks c' => Invariant.go c' /\ Go.mu c' = true
                end).
  { induction calls as [|call calls IH]; intros c I Hm; simpl.
    - now split.
    - unfold Go.bind. assert (S := go_invariant_step call c I Hm).
      destruct (Go.step call c) as [[] c'|c']; [|exact S].
      destruct S as [I' Hm']. now apply IH. }
  apply G; [apply go_invariant_new | reflexivity].
Qed.

(* ===================================================================== *)
(** ** Response parsers: status                                          *)
(* ===================================================================== *)

Lemma positionsFrom_cons (i : nat) (c : ascii) (codes : string) :
  Spec.positionsFrom i (String c codes) =
  (S i, c) :: Spec.positionsFrom (S i) codes.
Proof. reflexivity. Qed.

Lemma testclient_statusLoop_positions (codes : string) :
  forall i : nat,
    TestClient.statusLoop i codes =
    map Spec.statusLine (filter Spec.present (Spec.positionsFrom i codes)).
Proof.
  induction codes as [|c codes IH]; intros i; [reflexivity|].
  rewrite positionsFrom_cons. cbn [TestClient.statusLoop filter].
  rewrite IH.
  change (Spec.present (S i, c)) with (negb (Ascii.eqb c "F")).
  destruct (Ascii.eqb c "F"); cbn [negb app map]; [reflexivity|].
  f_equal. unfold Spec.statusLine. cbn [fst snd].
  now rewrite Nat.add_1_r.
Qed.

(** X12.  The test client's status parser, on a response made of an
    opening character, a tag, the status codes and a closing character:
    after its headings (the raw status being tag and codes), it prints one
    line for each of the first 32 codes that is not ["F"], with the
    position of the code counted from 1, the code and its meaning; codes
    beyond the 32nd are not decoded. *)
Theorem parseStatusResponse_decode (c0 tag c1 : ascii) (codes : string) :
  TestClient.parseStatusResponse
    (String c0 (String tag codes ++ String c1 "")) =
  ([ (TestClient.nl ++ "Status Information:")%string;
     ("  Raw Status: " ++ String tag codes)%string;
     (TestClient.nl ++ "Nozzle Status:")%string ]
   ++ map Spec.statusLine
        (filter Spec.present (Spec.positions (Str.take 32 codes))))%list.
Proof.
  unfold TestClient.parseStatusResponse.
  rewrite (substring_strip c0 (String tag codes) (String c1 "") 1 eq_refl).
  rewrite testclient_statusLoop_positions.
  rewrite substring_field by lia. reflexivity.
Qed.

Lemma substring_swap_first (s : string) (b : Z) :
  (b <= 0)%Z -> (1 <= Str.len s)%Z -> Str.substring s 1 b = Str.take 1 s.
Proof.
  intros Hb Hs. unfold Str.substring, Str.clamp.
  rewrite (Z.max_r b 0), (Z.max_l 1 0), (Z.min_l 0), (Z.min_l 1) by lia.
  reflexivity.
Qed.

Lemma monitor_activeLoop_positions (codes : string) :
  forall i : nat,
    Monitor.activeLoop i codes =
    map Spec.activeNozzle (filter Spec.active (Spec.positionsFrom i codes)).
Proof.
  induction codes as [|c codes IH]; intros i; [reflexivity|].
  rewrite positionsFrom_cons. cbn [Monitor.activeLoop filter].
  rewrite IH.
  change (Spec.active (S i, c))
    with (negb (Ascii.eqb c "F") && negb (Ascii.eqb c "L")
            && negb (Ascii.eqb c "B")).
  destruct (negb (Ascii.eqb c "F") && negb (Ascii.eqb c "L")
              && negb (Ascii.eqb c "B")); cbn [app map]; [|reflexivity].
  f_equal. unfold Spec.activeNozzle. cbn [fst snd].
  now rewrite Nat.add_1_r.
Qed.

(** The status codes the monitor decodes, by the number of codes in the
    response. *)
Lemma monitor_statusCodesOf (c0 tag c1 : ascii) (codes : string) :
  Monitor.statusCodesOf (String c0 (String tag codes ++ String c1 "")) =
  if (String.length codes <=? 9)%nat then String tag ""
  else Str.take (Nat.min 32 (String.length codes - 10)) codes.
Proof.
  unfold Monitor.statusCodesOf.
  rewrite (substring_strip c0 (String tag codes) (String c1 "") 1 eq_refl).
  unfold Str.len. cbn [String.length].
  destruct (Nat.leb_spec (String.length codes) 9) as [L|L].
  - rewrite substring_swap_first; [reflexivity | lia |].
    unfold Str.len. cbn [String.length]. lia.
  - rewrite substring_field by lia. unfold Spec.field.
    cbn [Z.to_nat Pos.to_nat Pos.iter_op Nat.add Str.drop].
    f_equal. lia.
Qed.

(** X13.  The monitor's status parser on a short response.  With fewer
    than 2 status codes after the tag (a response of fewer than 5
    characters) it reports nothing.  With 2 to 9 codes it decodes none of
    them: [data.length - 10] is negative, [substring] swaps its
    arguments, and the tag itself is taken for the code of position 1; so
    unless the tag is ["F"], ["L"] or ["B"], nozzle ["01"] is reported
    with the tag's meaning.  With exactly 10 codes nothing is decoded. *)
Theorem monitor_status_short (timestamp : string) (c0 tag c1 : ascii)
    (codes : string) :
  (String.length codes <= 10)%nat ->
  let response := String c0 (String tag codes ++ String c1 "") in
  Monitor.activeNozzles response =
    (if (2 <=? String.length codes)%nat && (String.length codes <=? 9)%nat
     then map Spec.activeNozzle (filter Spec.active [(1%nat, tag)])
     else []) /\
  Monitor.parseAndDisplayStatus timestamp response =
    (if (2 <=? String.length codes)%nat && (String.length codes <=? 9)%nat
        && Spec.active (1%nat, tag)
     then [ "[" ++ timestamp ++ "] Active Nozzles:";
            "  Nozzle 01: " ++ Monitor.getStatusDescription tag;
            "" ]
     else []).
Proof.
  intros L response.
  assert (A : Monitor.activeNozzles response =
              if (2 <=? String.length codes)%nat
                 && (String.length codes <=? 9)%nat
              then map Spec.activeNozzle (filter Spec.active [(1%nat, tag)])
              else []).
  { unfold Monitor.activeNozzles, response.
    rewrite monitor_statusCodesOf. unfold Str.len. cbn [String.length].
    rewrite length_app. cbn [String.length].
    destruct (Nat.leb_spec 2 (String.length codes)) as [L2|L2];
      match goal with
      | |- context [Z.ltb ?a ?b] => destruct (Z.ltb_spec a b)
      end; try lia; cbn [andb]; try reflexivity.
    destruct (Nat.leb_spec (String.length codes) 9) as [L9|L9].
    - rewrite monitor_activeLoop_positions. reflexivity.
    - replace (String.length codes - 10)%nat with 0%nat by lia.
      reflexivity. }
  split; [exact A|].
  unfold Monitor.parseAndDisplayStatus. rewrite A.
  destruct ((2 <=? String.length codes)%nat
            && (String.length codes <=? 9)%nat); [|reflexivity].
  cbn [filter andb]. destruct (Spec.active (1%nat, tag)); reflexivity.
Qed.

Lemma monitor_status_short_witness :
  (String.length "LLLA" <= 10)%nat /\
  Monitor.parseAndDisplayStatus "12:00" "(SLLLA)" =
    [ "[12:00] Active Nozzles:"; "  Nozzle 01: Unknown"; "" ].
Proof.
  split; [simpl; lia|].
  apply (proj2 (monitor_status_short "12:00" "(" "S" ")" "LLLA"
                  ltac:(simpl; lia))).
Defined.

(** [toUpperCase] after [padStart] renders a byte as [%02X] does. *)
Lemma nozzleOfPosition_hex (position : nat) :
  (position < 256)%nat ->
  Spec.isChecksumOf (N.of_nat position) (Monitor.nozzleOfPosition position).
Proof.
  intros H. unfold Monitor.nozzleOfPosition.
  apply (rendersByte_sound
           (fun m => Str.toUpperCase (Str.padStart (Str.toString16 m) 2 "0"))).
  apply forall_bytes; [vm_compute; reflexivity | lia].
Qed.

(** X14.  The monitor's status parser on a response with at least 10
    status codes after the tag: it decodes the codes but the last ten, 32
    at most, and reports each one that is not ["F"], ["L"] or ["B"] with
    its position counted from 1, the nozzle code (the position as two
    upper-case hexadecimal digits) and its meaning.  The last ten
    characters before the closing delimiter are never decoded. *)
Theorem monitor_status_decode (c0 tag c1 : ascii) (codes : string) :
  (10 <= String.length codes)%nat ->
  let decoded := Str.take (Nat.min 32 (String.length codes - 10)) codes in
  Monitor.activeNozzles (String c0 (String tag codes ++ String c1 "")) =
    map Spec.activeNozzle (filter Spec.active (Spec.positions decoded)) /\
  Forall (fun n => Spec.isChecksumOf (N.of_nat (Monitor.an_position n))
                     (Monitor.an_nozzle n))
    (Monitor.activeNozzles (String c0 (String tag codes ++ String c1 ""))).
Proof.
  intros L decoded.
  assert (A : Monitor.activeNozzles
                (String c0 (String tag codes ++ String c1 "")) =
              map Spec.activeNozzle
                (filter Spec.active (Spec.positions decoded))).
  { unfold Monitor.activeNozzles.
    rewrite monitor_statusCodesOf. unfold Str.len. cbn [String.length].
    rewrite length_app. cbn [String.length].
    match goal with
    | |- context [Z.ltb ?a ?b] => destruct (Z.ltb_spec a b)
    end; [lia|].
    destruct (Nat.leb_spec (String.length codes) 9); [lia|].
    apply monitor_activeLoop_positions. }
  split; [exact A|]. rewrite A.
  apply Forall_forall. intros n Hn.
  apply in_map_iff in Hn. destruct Hn as ([p c] & <- & Hin).
  apply filter_In in Hin. destruct Hin as [Hin _].
  unfold Spec.positions, Spec.positionsFrom in Hin.
  apply in_combine_l in Hin. apply in_seq in Hin.
  cbn [Spec.activeNozzle Monitor.an_position Monitor.an_nozzle fst].
  apply nozzleOfPosition_hex.
  assert (String.length decoded <= 32)%nat
    by (unfold decoded; rewrite length_take; lia).
  lia.
Qed.

Lemma monitor_status_decode_witness :
  (10 <= String.length "LLLALLLLFFFFFFFFFF")%nat /\
  Monitor.activeNozzles "(SLLLALLLLFFFFFFFFFF)" =
    [ Monitor.mkActiveNozzle 4 "04" "Refueling" ].
Proof.
  split; [simpl; lia|].
  apply (proj1 (monitor_status_decode "(" "S" ")" "LLLALLLLFFFFFFFFFF"
                  ltac:(simpl; lia))).
Defined.

(* ===================================================================== *)
(** ** Response parsers: totals and identified supply                    *)
(* ===================================================================== *)

(** X15.  The test client's parser of totals, on a response made of an
    opening character, the data and three trailing characters: with at
    least 10 characters of data it prints the mode (the first character),
    the nozzle ([[1:3]]) and the value ([[3:11]], so at most 8
    characters of it); with fewer it prints nothing.  It has no case for
    the sentinel. *)
Theorem parseTotalResponse_decode (c : ascii) (data trailer : string) :
  String.length trailer = 3%nat ->
  let response := String c (data ++ trailer) in
  let f := Spec.field data in
  ((10 <= String.length data)%nat ->
   TestClient.parseTotalResponse response =
     [ TestClient.nl ++ "Total Reading:";
       "  Mode: " ++ f 0 1; "  Nozzle: " ++ f 1 3;
       "  Value: " ++ f 3 11 ]%nat) /\
  ((String.length data < 10)%nat ->
   TestClient.parseTotalResponse response = []).
Proof.
  intros Ht response f.
  assert (Hd : Str.substring response 1 (Str.len response - 3) = data).
  { apply substring_strip. lia. }
  unfold TestClient.parseTotalResponse. rewrite Hd. unfold Str.len.
  split; intros H.
  - destruct (Z.leb_spec 10 (Z.of_nat (String.length data))); [|lia].
    subst f. supply_fields. reflexivity.
  - destruct (Z.leb_spec 10 (Z.of_nat (String.length data))); [lia|].
    reflexivity.
Qed.

Lemma parseTotalResponse_decode_witness :
  String.length "7A)" = 3%nat /\
  TestClient.parseTotalResponse "(L08001234567897A)" =
    [ TestClient.nl ++ "Total Reading:";
      "  Mode: L"; "  Nozzle: 08"; "  Value: 00123456" ].
Proof.
  split; [reflexivity|].
  apply (proj1 (parseTotalResponse_decode "(" "L0800123456789" "7A)" eq_refl)).
  simpl. lia.
Defined.

(** X16.  The test client's parser of an identified supply, on a response
    made of two leading characters, the data and three trailing
    characters: with at least 70 characters of data it prints the total,
    volume, price, nozzle and identifier ([[50:66]]); with fewer it prints
    nothing at all, not even the fields that are there. *)
Theorem parseSupplyIdentifiedResponse_decode (c0 c1 : ascii)
    (data trailer : string) :
  String.length trailer = 3%nat ->
  let response := String c0 (String c1 (data ++ trailer)) in
  let f := Spec.field data in
  ((70 <= String.length data)%nat ->
   TestClient.parseSupplyIdentifiedResponse response =
     [ TestClient.nl ++ "Supply Data (Identified):";
       "  Total: " ++ f 0 6; "  Volume: " ++ f 6 12;
       "  Price: " ++ f 12 16; "  Nozzle: " ++ f 22 24;
       "  Identifier: " ++ f 50 66 ]%nat) /\
  ((String.length data < 70)%nat ->
   TestClient.parseSupplyIdentifiedResponse response = []).
Proof.
  intros Ht response f.
  assert (Hd : Str.substring response 2 (Str.len response - 3) = data).
  { assert (M := substring_middle (String c0 (String c1 "")) data trailer).
    replace (Str.len response - 3)%Z
      with (Str.len (String c0 (String c1 "")) + Str.len data)%Z.
    - exact M.
    - unfold response, Str.len. cbn [String.length].
      rewrite length_app. lia. }
  assert (Hs : String.eqb response "(0)" = false).
  { apply String.eqb_neq. intros E.
    apply (f_equal String.length) in E. unfold response in E. simpl in E.
    rewrite length_app in E. lia. }
  unfold TestClient.parseSupplyIdentifiedResponse.
  rewrite Hs, Hd. unfold Str.len.
  split; intros H.
  - destruct (Z.leb_spec 70 (Z.of_nat (String.length data))); [|lia].
    subst f. supply_fields. reflexivity.
  - destruct (Z.leb_spec 70 (Z.of_nat (String.length data))); [lia|].
    reflexivity.
Qed.

Lemma parseSupplyIdentifiedResponse_decode_witness :
  String.length "A5)" = 3%nat /\
  TestClient.parseSupplyIdentifiedResponse
    "(&001234000567123400010008150730041234000012345601000123456789ABCDEF0000A5)" =
    [ TestClient.nl ++ "Supply Data (Identified):";
      "  Total: 001234"; "  Volume: 000567"; "  Price: 1234";
      "  Nozzle: 08"; "  Identifier: 0123456789ABCDEF" ].
Proof.
  split; [reflexivity|].
  apply (proj1 (parseSupplyIdentifiedResponse_decode "(" "&"
                  "001234000567123400010008150730041234000012345601000123456789ABCDEF0000"
                  "A5)" eq_refl)).
  simpl. lia.
Defined.

(* ===================================================================== *)
(** ** The Go API server: replies never panic                            *)
(* ===================================================================== *)

(** An in-range slice expression is the JavaScript [substring]. *)
Lemma slice_ok (s : string) (a b : Z) :
  (0 <= a <= b)%Z -> (b <= Str.len s)%Z ->
  Str.slice s a b = Some (Str.substring s a b).
Proof.
  intros Hab Hb. unfold Str.slice.
  destruct (Z.leb_spec 0 a); [|lia].
  destruct (Z.leb_spec a b); [|lia].
  destruct (Z.leb_spec b (Str.len s)); [|lia].
  simpl. now rewrite substring_in_range.
Qed.

Lemma substring_len (s : string) (a b : Z) :
  (0 <= a <= b)%Z -> (b <= Str.len s)%Z ->
  Str.len (Str.substring s a b) = (b - a)%Z.
Proof.
  intros Hab Hb. rewrite substring_in_range by assumption.
  unfold Str.len in *. rewrite length_take, length_drop. lia.
Qed.

Ltac slices :=
  repeat (rewrite slice_ok by lia).

(** X17.  The supply handler of the Go server.  Whatever the response, no
    slice expression of it is out of range.  On a response made of an
    opening character, the data and three trailing characters it replies
    with an object holding [totalToPay] to [nozzle] when the data has at
    least 24 characters, [day], [hour] and [minute] as well when it has
    at least 30, and never the extended fields ([month], [record],
    [finalTotal], [status]), however long the data. *)
Theorem go_supplyReply_decode :
  (forall resp : string, GoServer.supplyReply resp <> None) /\
  (forall (c : ascii) (data trailer : string),
      String.length trailer = 3%nat ->
      let f := Spec.field data in
      GoServer.supplyReply (String c (data ++ trailer)) =
      Some (GoServer.Object
              ((if (24 <=? String.length data)%nat
                then [ ("totalToPay", f 0 6); ("volume", f 6 12);
                       ("price", f 12 16); ("commaCode", f 16 18);
                       ("supplyTime", f 18 22); ("nozzle", f 22 24) ]%nat
                else []) ++
               (if (30 <=? String.length data)%nat
                then [ ("day", f 24 26); ("hour", f 26 28);
                       ("minute", f 28 30) ]%nat
                else []))%list)).
Proof.
  split.
  - intros resp. unfold GoServer.supplyReply.
    destruct (String.eqb resp "(0)"); [discriminate|].
    destruct (Z.ltb_spec (Str.len resp) 4) as [L|L]; [discriminate|].
    rewrite slice_ok by lia.
    assert (Hl := substring_len resp 1 (Str.len resp - 3)
                    ltac:(lia) ltac:(lia)).
    set (data := Str.substring resp 1 (Str.len resp - 3)) in *.
    destruct (Z.leb_spec 24 (Str.len data));
      destruct (Z.leb_spec 30 (Str.len data)); slices; discriminate.
  - intros c data trailer Ht f. unfold GoServer.supplyReply.
    rewrite (framed_not_sentinel c data trailer Ht).
    assert (Hr : Str.len (String c (data ++ trailer)) =
                 (Str.len data + 4)%Z).
    { unfold Str.len. cbn [String.length]. rewrite length_app. lia. }
    assert (Hlen : (0 <= Str.len data)%Z) by (unfold Str.len; lia).
    destruct (Z.ltb_spec (Str.len (String c (data ++ trailer))) 4); [lia|].
    rewrite slice_ok by lia.
    rewrite (substring_strip c data trailer 3) by lia.
    unfold Str.len in *.
    destruct (Z.leb_spec 24 (Z.of_nat (String.length data)));
      destruct (Nat.leb_spec 24 (String.length data)); try lia;
      destruct (Z.leb_spec 30 (Z.of_nat (String.length data)));
      destruct (Nat.leb_spec 30 (String.length data)); try lia;
      repeat (rewrite slice_ok by (unfold Str.len; lia));
      subst f; supply_fields; reflexivity.
Qed.

Lemma go_supplyReply_decode_witness :
  String.length "A5)" = 3%nat /\
  GoServer.supplyReply
    "(0012340005671234000100081507300412340000123456010000A5)" =
  Some (GoServer.Object
          [ ("totalToPay", "001234"); ("volume", "000567");
            ("price", "1234"); ("commaCode", "00");
            ("supplyTime", "0100"); ("nozzle", "08");
            ("day", "15"); ("hour", "07"); ("minute", "30") ]).
Proof.
  split; [reflexivity|].
  apply (proj2 go_supplyReply_decode "("%char
           "0012340005671234000100081507300412340000123456010000" "A5)"
           eq_refl).
Defined.

Lemma go_loop_windows (data : string) :
  forall (fuel i : nat),
    GoServer.visualizationLoop fuel data (Z.of_nat i) =
    Some (map Spec.entryObject (Spec.windows fuel 8 (Str.drop i data))).
Proof.
  induction fuel as [|fuel IH]; intros i; [reflexivity|].
  cbn [GoServer.visualizationLoop Spec.windows].
  rewrite length_drop. unfold Str.len.
  destruct (Z.leb_spec (Z.of_nat i + 8) (Z.of_nat (String.length data)))
    as [Hw|Hw].
  - destruct (Nat.leb_spec 8 (String.length data - i)) as [_|]; [|lia].
    repeat (rewrite slice_ok by (unfold Str.len; lia)).
    replace (Z.of_nat i + 8)%Z with (Z.of_nat (i + 8)) by lia.
    rewrite IH, drop_drop. cbn [map]. unfold Spec.entryObject.
    replace (Z.of_nat (i + 8)) with (Z.of_nat i + 8)%Z by lia.
    rewrite <- window_entry. reflexivity.
  - destruct (Nat.leb_spec 8 (String.length data - i)) as [|_]; [lia|].
    reflexivity.
Qed.

(** X18.  The visualization handler of the Go server.  Whatever the
    response, no slice expression of it is out of range.  On a response
    made of an opening character, a body and a closing character (the
    sentinel apart) it replies with one object, nozzle [[0:2]] and value
    [[2:8]], for each whole 8-character window of the body, dropping a
    partial window; and when the body has no whole window the reply is
    the nil slice, not the empty list the sentinel gets. *)
Theorem go_visualizationReply_decode :
  (forall resp : string, GoServer.visualizationReply resp <> None) /\
  (forall (c c' : ascii) (body : string),
      String.eqb (String c (body ++ String c' "")) "(0)" = false ->
      GoServer.visualizationReply (String c (body ++ String c' "")) =
      Some (match Spec.windows (String.length body) 8 body with
            | [] => GoServer.Nil
            | ws => GoServer.Objects (map Spec.entryObject ws)
            end)).
Proof.
  split.
  - intros resp. unfold GoServer.visualizationReply.
    destruct (String.eqb resp "(0)"); [discriminate|].
    destruct (Z.ltb_spec (Str.len resp) 2) as [L|L]; [discriminate|].
    rewrite slice_ok by lia.
    set (data := Str.substring resp 1 (Str.len resp - 1)).
    assert (G := go_loop_windows data (String.length data) 0).
    cbn [Z.of_nat] in G. rewrite G.
    destruct (map Spec.entryObject _); discriminate.
  - intros c c' body Hs. unfold GoServer.visualizationReply. rewrite Hs.
    assert (Hr : Str.len (String c (body ++ String c' "")) =
                 (Str.len body + 2)%Z).
    { unfold Str.len. cbn [String.length]. rewrite length_app. simpl. lia. }
    assert (Hlen : (0 <= Str.len body)%Z) by (unfold Str.len; lia).
    destruct (Z.ltb_spec (Str.len (String c (body ++ String c' ""))) 2);
      [lia|].
    rewrite slice_ok by lia.
    rewrite (substring_strip c body (String c' "") 1 eq_refl).
    assert (G := go_loop_windows body (String.length body) 0).
    cbn [Z.of_nat Str.drop] in G. rewrite G.
    destruct (Spec.windows (String.length body) 8 body); reflexivity.
Qed.

Lemma go_visualizationReply_decode_witness :
  String.eqb "(08010000125)" "(0)" = false /\
  GoServer.visualizationReply "(08010000125)" =
  Some (GoServer.Objects [[("nozzle", "08"); ("value", "010000")]]).
Proof.
  split; [reflexivity|].
  apply (proj2 go_visualizationReply_decode "("%char ")"%char "08010000125"
           eq_refl).
Defined.

(** X19.  The totals handler of the Go server.  Whatever the response, no
    slice or index expression of it is out of range.  On a response made
    of an opening character, the data and three trailing characters it
    replies with the raw response and, when the data has at least 3
    characters, the mode (the first byte as a string), the nozzle
    ([[1:3]]) and the value, which is all the rest of the data, not cut
    at 8 characters. *)
Theorem go_totalReply_decode :
  (forall resp : string, GoServer.totalReply resp <> None) /\
  (forall (c mode : ascii) (rest trailer : string),
      String.length trailer = 3%nat ->
      let data := String mode rest in
      let resp := String c (data ++ trailer) in
      GoServer.totalReply resp =
      Some (GoServer.Object
              (if (2 <=? String.length rest)%nat
               then [ ("raw", resp); ("mode", GoServer.stringOfByte mode);
                      ("nozzle", Spec.field data 1 3);
                      ("value", Str.drop 3 data) ]
               else [ ("raw", resp) ]))).
Proof.
  split.
  - intros resp. unfold GoServer.totalReply.
    destruct (Z.ltb_spec (Str.len resp) 4) as [L|L]; [discriminate|].
    rewrite slice_ok by lia.
    assert (Hl := substring_len resp 1 (Str.len resp - 3)
                    ltac:(lia) ltac:(lia)).
    set (data := Str.substring resp 1 (Str.len resp - 3)) in *.
    destruct (Z.leb_spec 3 (Str.len data)); [|discriminate].
    unfold GoServer.index.
    destruct (Z.leb_spec 0 0); [|lia].
    destruct (Z.ltb_spec 0 (Str.len data)); [|lia].
    cbn [andb Z.to_nat Str.drop].
    destruct data as [|m r]; [unfold Str.len in *; simpl in *; lia|].
    slices. discriminate.
  - intros c mode rest trailer Ht data resp. unfold GoServer.totalReply.
    assert (Hr : Str.len resp = (Str.len data + 4)%Z).
    { unfold resp, Str.len. cbn [String.length]. rewrite length_app. lia. }
    assert (Hd : Str.len data = (Str.len rest + 1)%Z).
    { unfold data, Str.len. cbn [String.length]. lia. }
    assert (Hlen : (0 <= Str.len rest)%Z) by (unfold Str.len; lia).
    destruct (Z.ltb_spec (Str.len resp) 4); [lia|].
    rewrite slice_ok by lia.
    assert (Hs : Str.substring resp 1 (Str.len resp - 3) = data)
      by (apply substring_strip; lia).
    rewrite Hs.
    destruct (Z.leb_spec 3 (Str.len data));
      destruct (Nat.leb_spec 2 (String.length rest));
      try (unfold Str.len in *; lia); [|reflexivity].
    unfold GoServer.index.
    destruct (Z.leb_spec 0 0); [|lia].
    destruct (Z.ltb_spec 0 (Str.len data)); [|lia].
    cbn [andb]. unfold data at 1. cbn [Z.to_nat Str.drop].
    slices. rewrite substring_field by lia.
    rewrite substring_to_end by lia. reflexivity.
Qed.

Lemma go_totalReply_decode_witness :
  String.length "7A)" = 3%nat /\
  GoServer.totalReply "(L08001234567897A)" =
  Some (GoServer.Object
          [ ("raw", "(L08001234567897A)"); ("mode", "L");
            ("nozzle", "08"); ("value", "00123456789") ]).
Proof.
  split; [reflexivity|].
  apply (proj2 go_totalReply_decode "("%char "L"%char "0800123456789" "7A)"
           eq_refl).
Defined.

(* ===================================================================== *)
(** ** Response parsers: visualization, window by window                 *)
(* ===================================================================== *)

Lemma testclient_loop_pieces (data : string) :
  forall (fuel i : nat),
    TestClient.visualizationLoop fuel data (Z.of_nat i) =
    map (Spec.entryLine (fun v => v)) (Spec.pieces fuel 8 (Str.drop i data)).
Proof.
  induction fuel as [|fuel IH]; intros i; [reflexivity|].
  cbn [TestClient.visualizationLoop Spec.pieces].
  rewrite length_drop. unfold Str.len.
  destruct (Z.ltb_spec (Z.of_nat i) (Z.of_nat (String.length data))) as [Hi|Hi].
  - destruct (Nat.eqb_spec (String.length data - i) 0) as [E|_]; [lia|].
    cbn [map]. f_equal.
    + unfold Spec.entryLine. rewrite <- window_entry. reflexivity.
    + replace (Z.of_nat i + 8)%Z with (Z.of_nat (i + 8)) by lia.
      rewrite IH, drop_drop. reflexivity.
  - destruct (Nat.eqb_spec (String.length data - i) 0) as [_|E]; [|lia].
    reflexivity.
Qed.

Lemma take_drop (n : nat) (s : string) : Str.take n s ++ Str.drop n s = s.
Proof.
  revert s; induction n as [|n IH]; intros [|c s]; simpl; try reflexivity.
  now rewrite IH.
Qed.

Lemma pieces_concat (n : nat) :
  (0 < n)%nat ->
  forall (fuel : nat) (body : string),
    (String.length body <= fuel)%nat ->
    Str.concat (Spec.pieces fuel n body) = body.
Proof.
  intros Hn. induction fuel as [|fuel IH]; intros body Hf.
  - destruct body; [reflexivity | simpl in Hf; lia].
  - cbn [Spec.pieces].
    destruct (Nat.eqb_spec (String.length body) 0) as [E|E].
    + destruct body; [reflexivity | discriminate E].
    + cbn [Str.concat]. rewrite IH; [apply take_drop|].
      rewrite length_drop. lia.
Qed.

(** X20.  The test client's visualization parser, on a response made of
    an opening character, a body and a closing character (the sentinel
    apart): it prints one entry for every started window of 8 characters,
    the last one from the characters that are left when the body is not a
    whole number of windows; the windows it decodes make up the whole
    body. *)
Theorem parseVisualizationResponse_pieces (c c' : ascii) (body : string) :
  String.eqb (String c (body ++ String c' "")) "(0)" = false ->
  TestClient.parseVisualizationResponse (String c (body ++ String c' "")) =
    (TestClient.nl ++ "Ongoing Dispensing:")
      :: map (Spec.entryLine (fun v => v))
           (Spec.pieces (String.length body) 8 body) /\
  Str.concat (Spec.pieces (String.length body) 8 body) = body.
Proof.
  intros Hs. split.
  - unfold TestClient.parseVisualizationResponse. rewrite Hs.
    rewrite (substring_strip c body (String c' "") 1 eq_refl).
    assert (L := testclient_loop_pieces body (String.length body) 0).
    cbn [Z.of_nat Str.drop] in L. rewrite L. reflexivity.
  - apply pieces_concat; lia.
Qed.

Lemma parseVisualizationResponse_pieces_witness :
  String.eqb "(08010000125)" "(0)" = false /\
  TestClient.parseVisualizationResponse "(08010000125)" =
    [ TestClient.nl ++ "Ongoing Dispensing:";
      "  Nozzle 08: 010000"; "  Nozzle 12: 5" ].
Proof.
  split; [reflexivity|].
  apply (proj1 (parseVisualizationResponse_pieces "(" ")" "08010000125"
                  eq_refl)).
Defined.

Lemma monitor_visualization_windows_witness :
  String.eqb "(08010000125)" "(0)" = false /\
  Monitor.parseAndDisplayVisualization "12:00" (fun v => v) "(08010000125)" =
    [ "[12:00] Dispensing:"; "  Nozzle 08: 010000"; "" ].
Proof.
  split; [reflexivity|].
  apply (monitor_visualization_windows "12:00" (fun v => v) "(" ")"
           "08010000125" eq_refl).
Defined.

(* ===================================================================== *)
(** ** The Go session: disconnecting, and connecting on demand           *)
(* ===================================================================== *)

(** X21.  [Disconnect] on a session whose mutex is free always returns,
    leaves the session disconnected with no connection and the mutex
    free, closes the connection the session had, and is idempotent: a
    second [Disconnect] changes nothing. *)
Theorem go_Disconnect_idempotent (c : Go.Client) :
  Go.mu c = false ->
  exists c',
    Go.Disconnect c = Go.Returns tt c' /\
    Go.connected c' = false /\ Go.conn c' = None /\ Go.mu c' = false /\
    (forall k, Go.conn c = Some k -> Go.closed c' = k :: Go.closed c) /\
    Go.Disconnect c' = Go.Returns tt c'.
Proof.
  intros Hm. destruct c as [[k|] cd m dl cl w]; simpl in Hm; subst m;
    eexists; (split; [go_unfold; simpl; reflexivity|]);
    repeat split; simpl; intros; congruence.
Qed.

Lemma go_Disconnect_idempotent_witness :
  exists c',
    Go.Disconnect (Go.mkClient (Some 0%nat) true false 1 [] []) =
      Go.Returns tt c' /\
    Go.connected c' = false.
Proof.
  destruct (go_Disconnect_idempotent
              (Go.mkClient (Some 0%nat) true false 1 [] []) eq_refl)
    as (c' & D & C & _).
  exists c'. split; [exact D | exact C].
Defined.

(** X22.  [ensureConnected] of the Go server on a session whose mutex is
    free: on a connected session it lets the handler go on without
    dialling and without changing anything; on a disconnected one it
    dials, lets the handler go on with the session connected when the
    dial succeeds, and stops it with the session unchanged when the dial
    fails.  It never blocks. *)
Theorem go_ensureConnected (dial : Go.error) (c : Go.Client) :
  Go.mu c = false ->
  (Go.connected c = true ->
   GoServer.ensureConnected dial c = Go.Returns true c) /\
  (Go.connected c = false -> dial <> None ->
   GoServer.ensureConnected dial c = Go.Returns false c) /\
  (Go.connected c = false -> dial = None ->
   exists c', GoServer.ensureConnected dial c = Go.Returns true c' /\
              Go.connected c' = true /\
              Go.conn c' = Some (Go.dialed c)).
Proof.
  intros Hm. destruct c as [cn cd m dl cl w]; simpl in Hm; subst m.
  simpl. split; [|split].
  - intros ->. reflexivity.
  - intros -> Hd. destruct dial as [e|]; [reflexivity | now contradiction Hd].
  - intros -> ->. eexists. split; [reflexivity|]. split; reflexivity.
Qed.

Lemma go_ensureConnected_witness :
  Go.mu Go.NewClient = false /\
  GoServer.ensureConnected (Some "connection refused") Go.NewClient =
    Go.Returns false Go.NewClient.
Proof.
  split; [reflexivity|].
  apply (proj1 (proj2 (go_ensureConnected (Some "connection refused")
                         Go.NewClient eq_refl)));
    [reflexivity | discriminate].
Defined.
